(** * etf_auto_invest: the portfolio allocator and the dip-buy decision

    A shallow embedding of [modules/portfolio_allocator.py] (class
    [PortfolioAllocator]) and of the part of [modules/strategy.py]
    ([TradingStrategy.execute_dip_buy]) that narrows and restores the
    allocator's universe.

    Conventions of the embedding:
    - Python numbers (the [int]s of the price feed and the [float]s of the
      allocation arithmetic) are exact rationals [Q]; equality of computed
      amounts is [Qeq] ([==]).  Rounding of IEEE doubles is not modelled.
    - Python dictionaries read from the configuration are records whose
      optional keys are [option] fields; dictionaries used as maps
      ([current_prices], [CATEGORY_LIMITS], [category_totals]) are [gmap]s.
    - A Python exception is a [Raise] in the [result] monad.
    - [print] calls are dropped; the final value of the local variable
      [total_remainder], which the source only prints, is returned next to
      the orders by the [_state] variants. *)

From Stdlib Require Import QArith Qabs Qround ZArith Lia Lqa.
From stdpp Require Import gmap strings list sorting.

Open Scope string_scope.

(** ** Exceptions *)

Inductive PyError : Type :=
  | ZeroDivisionError
  | ValueError (msg : string)
  | KeyError (key : string).

Inductive result (A : Type) : Type :=
  | Ok (a : A)
  | Raise (e : PyError).
Arguments Ok {A} a.
Arguments Raise {A} e.

#[global] Instance result_ret : MRet result := fun _ a => Ok a.
#[global] Instance result_bind : MBind result := fun _ _ f m =>
  match m with
  | Ok a => f a
  | Raise e => Raise e
  end.
#[global] Instance result_fmap : FMap result := fun _ _ f m =>
  match m with
  | Ok a => Ok (f a)
  | Raise e => Raise e
  end.

(** ** Python arithmetic *)

(** [a / b]: true division, [ZeroDivisionError] on a zero divisor. *)
Definition py_div (a b : Q) : result Q :=
  if Qeq_bool b 0 then Raise ZeroDivisionError else Ok (a / b)%Q.

(** [int(x)]: truncation toward zero. *)
Definition py_int (x : Q) : Z := Z.quot (Qnum x) (Zpos (Qden x)).

(** [sum(xs)]: left to right from 0. *)
Definition py_sum (xs : list Q) : Q := fold_left Qplus xs 0%Q.


(** [sorted(xs, key=...)]: the stable sort on an integer key. *)
Fixpoint insert_by {A : Type} (key : A -> Z) (x : A) (l : list A) : list A :=
  match l with
  | [] => [x]
  | y :: l' => if (key x <=? key y)%Z then x :: y :: l'
               else y :: insert_by key x l'
  end.

Definition sorted {A : Type} (key : A -> Z) (l : list A) : list A :=
  foldr (insert_by key) [] l.

(** ** Data model *)

(** An entry of [ETF_LIST]. [code] and [name] are read with [etf['...']],
    the other keys with [etf.get('...', default)]. *)
Module Etf.
Record t : Type := mk {
  code : string;
  name : string;
  category : option string;
  weight : option Q;
  custom_ratio : option Q;
  priority : option Z;
  enabled : option bool
}.
End Etf.

(** A value of [CATEGORY_LIMITS]. *)
Module Limit.
Record t : Type := mk { max_allocation : option Q }.
End Limit.

(** A line returned by [calculate_allocation]. *)
Module Alloc.
Record t : Type := mk {
  code : string;
  name : string;
  category : string;
  allocated_amount : Q;
  ratio : Q;
  priority : Z;
  weight : option Q
}.
End Alloc.

(** A buy order returned by [calculate_buy_quantities]. *)
Module Order.
Record t : Type := mk {
  code : string;
  name : string;
  category : string;
  allocated_amount : Q;
  current_price : Q;
  quantity : Z;
  actual_amount : Q;
  remainder : Q;
  priority : Z
}.
End Order.

(** The fields of a [PortfolioAllocator] object that the allocation reads. *)
Record PortfolioAllocator : Type := mkAllocator {
  allocation_method : string;
  dip_allocation_method : option string;
  category_limits : gmap string Limit.t;
  active_etfs : list Etf.t
}.

Definition get_category (etf : Etf.t) : string :=
  default "UNKNOWN" (Etf.category etf).
Definition get_weight (etf : Etf.t) : Q := default 1%Q (Etf.weight etf).
Definition get_custom_ratio (etf : Etf.t) : Q :=
  default 0%Q (Etf.custom_ratio etf).
Definition get_priority (etf : Etf.t) : Z := default 999%Z (Etf.priority etf).


(** ** [PortfolioAllocator]: money allocation *)

(** [_equal_allocation]: [amount_per_etf] is computed once before the loop,
    [1.0 / count] in each iteration. *)
Definition _equal_allocation (self : PortfolioAllocator) (total_amount : Q)
  : result (list Alloc.t) :=
  let count := inject_Z (Z.of_nat (length (active_etfs self))) in
  amount_per_etf ← py_div total_amount count;
  allocations ← mapM (fun etf =>
      ratio ← py_div 1 count;
      mret (Alloc.mk (Etf.code etf) (Etf.name etf) (get_category etf)
              amount_per_etf ratio (get_priority etf) None))
    (active_etfs self);
  mret (sorted Alloc.priority allocations).

(** [_apply_category_limits], first loop: the total per category. *)
Definition category_totals_of (allocations : list Alloc.t) : gmap string Q :=
  foldl (fun (category_totals : gmap string Q) alloc =>
           let cat := Alloc.category alloc in
           <[cat := (default 0 (category_totals !! cat)
                     + Alloc.allocated_amount alloc)%Q]> category_totals)
        ∅ allocations.

(** [limits.get('max_allocation')] for [limits = category_limits.get(cat, {})]. *)
Definition max_limit_of (self : PortfolioAllocator) (cat : string) : option Q :=
  category_limits self !! cat ≫= Limit.max_allocation.

(** [_apply_category_limits], body of the second loop. [if max_limit:] is
    false for a missing limit and for a limit equal to 0. *)
Definition adjust_line (self : PortfolioAllocator)
    (category_totals : gmap string Q) (total_amount : Q) (alloc : Alloc.t)
  : result Alloc.t :=
  let cat := Alloc.category alloc in
  match max_limit_of self cat with
  | None => Ok alloc
  | Some max_limit =>
      if Qeq_dec max_limit 0 then Ok alloc
      else
        cat_total ← match category_totals !! cat with
                    | Some t => Ok t
                    | None => Raise (KeyError cat)
                    end;
        cat_ratio ← py_div cat_total total_amount;
        if Qlt_le_dec max_limit cat_ratio then
          scale_factor ← py_div max_limit cat_ratio;
          mret (Alloc.mk (Alloc.code alloc) (Alloc.name alloc) cat
                  (Alloc.allocated_amount alloc * scale_factor)
                  (Alloc.ratio alloc * scale_factor)
                  (Alloc.priority alloc) (Alloc.weight alloc))
        else Ok alloc
  end.

Definition _apply_category_limits (self : PortfolioAllocator)
    (allocations : list Alloc.t) (total_amount : Q) : result (list Alloc.t) :=
  if decide (size (category_limits self) = 0%nat) then Ok allocations
  else
    let category_totals := category_totals_of allocations in
    mapM (adjust_line self category_totals total_amount) allocations.

Definition _weighted_allocation (self : PortfolioAllocator) (total_amount : Q)
  : result (list Alloc.t) :=
  let total_weight := py_sum (get_weight <$> active_etfs self) in
  allocations ← mapM (fun etf =>
      let weight := get_weight etf in
      ratio ← py_div weight total_weight;
      let allocated_amount := (total_amount * ratio)%Q in
      mret (Alloc.mk (Etf.code etf) (Etf.name etf) (get_category etf)
              allocated_amount ratio (get_priority etf) (Some weight)))
    (active_etfs self);
  allocations ← _apply_category_limits self allocations total_amount;
  mret (sorted Alloc.priority allocations).


Definition _custom_allocation (self : PortfolioAllocator) (total_amount : Q)
  : result (list Alloc.t) :=
  let total_ratio := py_sum (get_custom_ratio <$> active_etfs self) in
  allocations ← mapM (fun etf =>
      ratio ← py_div (get_custom_ratio etf) total_ratio;
      let allocated_amount := (total_amount * ratio)%Q in
      mret (Alloc.mk (Etf.code etf) (Etf.name etf) (get_category etf)
              allocated_amount ratio (get_priority etf) None))
    (active_etfs self);
  mret (sorted Alloc.priority allocations).

Definition _calculate_regular_allocation (self : PortfolioAllocator)
    (total_amount : Q) : result (list Alloc.t) :=
  if decide (allocation_method self = "EQUAL") then
    _equal_allocation self total_amount
  else if decide (allocation_method self = "WEIGHTED") then
    _weighted_allocation self total_amount
  else if decide (allocation_method self = "CUSTOM") then
    _custom_allocation self total_amount
  else
    Raise (ValueError ("Unknown allocation method: " +:+ allocation_method self)).

Definition _calculate_dip_allocation (self : PortfolioAllocator)
    (total_amount : Q) : result (list Alloc.t) :=
  let dip_method := default "FOCUS" (dip_allocation_method self) in
  if decide (dip_method = "FOCUS") then _equal_allocation self total_amount
  else if decide (dip_method = "EQUAL") then _equal_allocation self total_amount
  else if decide (dip_method = "WEIGHTED") then
    _weighted_allocation self total_amount
  else _equal_allocation self total_amount.

Definition calculate_allocation (self : PortfolioAllocator) (total_amount : Q)
    (mode : string) : result (list Alloc.t) :=
  if decide (mode = "REGULAR") then
    _calculate_regular_allocation self total_amount
  else if decide (mode = "DIP") then
    _calculate_dip_allocation self total_amount
  else Raise (ValueError ("Unknown mode: " +:+ mode)).

(** ** [PortfolioAllocator]: quantity resolution *)

(** One iteration of the loop of [_redistribute_remainder] on an order that
    is reached with [total_remainder >= current_price]. *)
Definition grant (order : Order.t) (additional_qty : Z) : Order.t :=
  let additional_amount :=
    (inject_Z additional_qty * Order.current_price order)%Q in
  Order.mk (Order.code order) (Order.name order) (Order.category order)
    (Order.allocated_amount order) (Order.current_price order)
    (Order.quantity order + additional_qty)
    (Order.actual_amount order + additional_amount)
    (Order.remainder order) (Order.priority order).

(** [_redistribute_remainder] with the final [total_remainder]. The first
    branch is the [break]: the orders not yet visited are returned as they
    are. *)
Fixpoint _redistribute_remainder_state (buy_orders : list Order.t)
    (total_remainder : Q) : result (list Order.t * Q) :=
  match buy_orders with
  | [] => Ok ([], total_remainder)
  | order :: rest =>
      if Qlt_le_dec total_remainder (Order.current_price order) then
        Ok (order :: rest, total_remainder)
      else
        q ← py_div total_remainder (Order.current_price order);
        let additional_qty := py_int q in
        if (0 <? additional_qty)%Z then
          let additional_amount :=
            (inject_Z additional_qty * Order.current_price order)%Q in
          '(rest', final) ← _redistribute_remainder_state rest
                              (total_remainder - additional_amount);
          mret (grant order additional_qty :: rest', final)
        else
          '(rest', final) ← _redistribute_remainder_state rest total_remainder;
          mret (order :: rest', final)
  end.


(** The order built from a line and its price. *)
Definition make_order (alloc : Alloc.t) (price : Q) (quantity : Z) : Order.t :=
  let allocated := Alloc.allocated_amount alloc in
  let actual_amount := (inject_Z quantity * price)%Q in
  let remainder := (allocated - actual_amount)%Q in
  Order.mk (Alloc.code alloc) (Alloc.name alloc) (Alloc.category alloc)
    allocated price quantity actual_amount remainder (Alloc.priority alloc).

(** The first loop of [calculate_buy_quantities], with its two accumulators. *)
Fixpoint resolve_lines (allocations : list Alloc.t)
    (current_prices : gmap string Q) (buy_orders : list Order.t)
    (total_remainder : Q) : result (list Order.t * Q) :=
  match allocations with
  | [] => Ok (buy_orders, total_remainder)
  | alloc :: rest =>
      match current_prices !! Alloc.code alloc with
      | None => resolve_lines rest current_prices buy_orders total_remainder
      | Some price =>
          q ← py_div (Alloc.allocated_amount alloc) price;
          let order := make_order alloc price (py_int q) in
          resolve_lines rest current_prices (buy_orders ++ [order])
            (total_remainder + Order.remainder order)
      end
  end.

(** [calculate_buy_quantities] with the final [total_remainder]. *)
Definition calculate_buy_quantities_state (allocations : list Alloc.t)
    (current_prices : gmap string Q) : result (list Order.t * Q) :=
  '(buy_orders, total_remainder) ← resolve_lines allocations current_prices [] 0;
  let buy_orders := sorted Order.priority buy_orders in
  if Qlt_le_dec 0 total_remainder then
    _redistribute_remainder_state buy_orders total_remainder
  else Ok (buy_orders, total_remainder).

Definition calculate_buy_quantities (allocations : list Alloc.t)
    (current_prices : gmap string Q) : result (list Order.t) :=
  fst <$> calculate_buy_quantities_state allocations current_prices.

(** ** [TradingStrategy.execute_dip_buy] *)

(** An element of the list returned by [check_dip_opportunity]. *)
Module Opp.
Record t : Type := mk {
  code : string;
  name : string;
  current_price : Q;
  high_52w : Q;
  drop_rate : Q;
  category : string
}.
End Opp.

(** The state the decision reads and writes: the allocator object, the
    amount [strategy['dip_buy_amount']] and the [auto_trade] flag. The cash
    balance is the value [api.get_balance()] returns in this invocation. *)
Record TradingStrategy : Type := mkStrategy {
  allocator : PortfolioAllocator;
  dip_buy_amount : Q;
  auto_trade : bool
}.

Definition set_active_etfs (self : PortfolioAllocator) (etfs : list Etf.t)
  : PortfolioAllocator :=
  mkAllocator (allocation_method self) (dip_allocation_method self)
    (category_limits self) etfs.

Definition with_allocator (self : TradingStrategy) (a : PortfolioAllocator)
  : TradingStrategy :=
  mkStrategy a (dip_buy_amount self) (auto_trade self).

(** [{opp['code']: opp['current_price'] for opp in opportunities}]: a later
    entry overwrites an earlier one with the same code. *)
Definition prices_of (opportunities : list Opp.t) : gmap string Q :=
  foldl (fun (m : gmap string Q) opp =>
           <[Opp.code opp := Opp.current_price opp]> m) ∅ opportunities.

Section ExecuteDipBuy.
(** Steps 4 and 5 of the source (printing the plan, submitting the orders
    or announcing them): external collaborators which do not touch the
    allocator. *)
Variable route : list Order.t -> result bool.

(** [execute_dip_buy]: the returned pair is the state of the object when
    the call ends and either the returned boolean or the exception that
    left the call. *)
Definition execute_dip_buy (self : TradingStrategy) (balance : Q)
    (opportunities : list Opp.t) : TradingStrategy * result bool :=
  match opportunities with
  | [] => (self, Ok false)
  | _ =>
    let dip_amount := dip_buy_amount self in
    if Qlt_le_dec balance dip_amount then (self, Ok false)
    else
      let dip_codes := Opp.code <$> opportunities in
      let original_etfs := active_etfs (allocator self) in
      let narrowed :=
        set_active_etfs (allocator self)
          (filter (fun etf => Etf.code etf ∈ dip_codes) original_etfs) in
      let self1 := with_allocator self narrowed in
      match calculate_allocation (allocator self1) dip_amount "DIP" with
      | Raise e => (self1, Raise e)
      | Ok allocations =>
          match calculate_buy_quantities allocations
                  (prices_of opportunities) with
          | Raise e => (self1, Raise e)
          | Ok buy_orders =>
              let self2 :=
                with_allocator self1
                  (set_active_etfs (allocator self1) original_etfs) in
              (self2, route buy_orders)
          end
      end
  end.
End ExecuteDipBuy.

(** * Vocabulary of the properties, and the inputs of the examples *)

Local Open Scope Q_scope.
Local Open Scope list_scope.

(** The sum of a field over a list of records. *)
Definition total {A : Type} (f : A -> Q) (l : list A) : Q := py_sum (f <$> l).

(** What redistribution may do to one order: nothing, or grant a positive
    number of additional units. *)
Definition granted (order order' : Order.t) : Prop :=
  order' = order \/ exists extra : Z, (0 < extra)%Z /\ order' = grant order extra.

(** The orders the loop appends: one per line whose code has a price. *)
Definition resolved (allocations : list Alloc.t)
    (current_prices : gmap string Q) : list Order.t :=
  omap (fun alloc =>
          price ← current_prices !! Alloc.code alloc;
          Some (make_order alloc price
                  (py_int (Alloc.allocated_amount alloc / price))))
       allocations.

Definition priced (current_prices : gmap string Q) (alloc : Alloc.t) : Prop :=
  is_Some (current_prices !! Alloc.code alloc).

#[global] Instance priced_dec (current_prices : gmap string Q) (alloc : Alloc.t) :
  Decision (priced current_prices alloc).
Proof. unfold priced. apply _. Defined.

(** The instruments of the end-to-end scenario. *)
Definition etf_A : Etf.t :=
  Etf.mk "A" "A" None (Some 2) None (Some 1%Z) None.
Definition etf_B : Etf.t :=
  Etf.mk "B" "B" None (Some 1) None (Some 2%Z) None.

(** WEIGHTED over [A(priority 1, weight 2); B(priority 2, weight 1)], no
    category limits. *)
Definition scenario_allocator : PortfolioAllocator :=
  mkAllocator "WEIGHTED" None ∅ [etf_A; etf_B].

Definition scenario_prices : gmap string Q :=
  <["A" := 150000]> (<["B" := 40000]> ∅).

(** What the plan of a run looks like: code, quantity and actual amount of
    each order, and the cash left unspent. *)
Definition plan_is (orders : list Order.t) (final : Q)
    (expected : list (string * Z * Q)) (unspent : Q) : Prop :=
  Forall2 (fun o '(code, quantity, actual) =>
             Order.code o = code /\ Order.quantity o = quantity /\
             Order.actual_amount o == actual)
          orders expected /\
  final == unspent.

(** The scenario: allocation of 300000, then quantity resolution. *)
Definition scenario_run : result (list Order.t * Q) :=
  allocations ← calculate_allocation scenario_allocator 300000 "REGULAR";
  calculate_buy_quantities_state allocations scenario_prices.

Definition scenario_outcome : result (list Order.t * Q) :=
  Eval vm_compute in scenario_run.

(** Two lines of 100, for A and for B, and the price 60 for both. *)
Definition two_lines : list Alloc.t :=
  [Alloc.mk "A" "A" "UNKNOWN" 100 (1 # 2) 1%Z None;
   Alloc.mk "B" "B" "UNKNOWN" 100 (1 # 2) 2%Z None].

Definition prices_60 : gmap string Q := <["A" := 60]> (<["B" := 60]> ∅).

(** [units] is the quantity the first loop computes for the line. The
    [remainder] field is set there and redistribution does not write it. *)
Definition order_invariant (o : Order.t) : Prop :=
  let units := py_int (Order.allocated_amount o / Order.current_price o) in
  (0 <= units <= Order.quantity o)%Z /\
  Order.actual_amount o == inject_Z (Order.quantity o) * Order.current_price o /\
  Order.remainder o
    == Order.allocated_amount o - inject_Z units * Order.current_price o /\
  0 <= Order.remainder o /\
  Order.remainder o < Order.current_price o /\
  Order.allocated_amount o - Order.actual_amount o
    == Order.remainder o
       - inject_Z (Order.quantity o - units) * Order.current_price o.

Definition two_lines_orders : result (list Order.t) :=
  Eval vm_compute in calculate_buy_quantities two_lines prices_60.

(** The price map [{A: 0}]; B has no price. *)
Definition zero_price : gmap string Q := <["A" := 0]> ∅.

(** The price map [{A: -50}]; B has no price. *)
Definition negative_price : gmap string Q := <["A" := -50]> ∅.

Definition negative_price_orders : result (list Order.t) :=
  Eval vm_compute in calculate_buy_quantities two_lines negative_price.

(** The orders of the scenario as the first loop leaves them. *)
Definition order_A : Order.t :=
  Order.mk "A" "A" "UNKNOWN" 200000 150000 1 150000 50000 1.
Definition order_B : Order.t :=
  Order.mk "B" "B" "UNKNOWN" 100000 40000 2 80000 20000 2.

Definition allocator_with (method : string) (dip_method : option string)
  : PortfolioAllocator :=
  mkAllocator method dip_method ∅ [etf_A; etf_B].

Definition unknown_dip_allocations : result (list Alloc.t) :=
  Eval vm_compute in
    calculate_allocation (allocator_with "EQUAL" (Some "BEST")) 300000 "DIP".






(** A category without a limit that counts: no entry, no [max_allocation]
    key, or the value 0. *)
Definition unlimited (self : PortfolioAllocator) (cat : string) : Prop :=
  match max_limit_of self cat with
  | None => True
  | Some max_limit => max_limit == 0
  end.

(** One category, X, with the limit 0, and a line that gives X the whole
    total of 100. *)
Definition zero_cap_allocator : PortfolioAllocator :=
  mkAllocator "WEIGHTED" None (<["X" := Limit.mk (Some 0)]> ∅) [].

Definition line_X : Alloc.t := Alloc.mk "A" "A" "X" 100 1 1%Z (Some 1).







(** The allocator with its universe narrowed to the flagged codes. *)
Definition narrowed (self : TradingStrategy) (opportunities : list Opp.t)
  : TradingStrategy :=
  with_allocator self
    (set_active_etfs (allocator self)
       (filter (fun etf => Etf.code etf ∈ (Opp.code <$> opportunities))
               (active_etfs (allocator self)))).

(** The planning step of [execute_dip_buy], between the narrowing and the
    restoring assignment. *)
Definition dip_plan (self : TradingStrategy) (opportunities : list Opp.t)
  : result (list Order.t) :=
  allocations ← calculate_allocation (allocator (narrowed self opportunities))
                  (dip_buy_amount self) "DIP";
  calculate_buy_quantities allocations (prices_of opportunities).

(** Two instruments are active; A is flagged with the price 0, as the price
    feed reports it for an instrument that does not trade. *)
Definition dip_strategy : TradingStrategy :=
  mkStrategy (allocator_with "EQUAL" None) 250000 false.

Definition opportunity_A : Opp.t := Opp.mk "A" "A" 0 100 (-100) "UNKNOWN".

(** ** More of the allocator *)



(** A line that stands for an instrument: same code, same priority. *)
Definition line_of (etf : Etf.t) (a : Alloc.t) : Prop :=
  Alloc.code a = Etf.code etf /\ Alloc.priority a = get_priority etf.

(** The dictionary [get_portfolio_summary] returns; a value of
    [category_breakdown] is the pair of its [amount] and [count]. *)
Module Summary.
Record t : Type := mk {
  total_allocated : Q;
  total_invested : Q;
  efficiency : Q;
  total_stocks : Z;
  etf_count : nat;
  category_breakdown : gmap string (Q * nat)
}.
End Summary.

(** The loop of [get_portfolio_summary] over the orders. *)
Definition add_to_breakdown (breakdown : gmap string (Q * nat))
    (order : Order.t) : gmap string (Q * nat) :=
  let cat := Order.category order in
  let entry := default (0, 0%nat) (breakdown !! cat) in
  <[cat := (entry.1 + Order.actual_amount order, S entry.2)]> breakdown.

Definition get_portfolio_summary (buy_orders : list Order.t) : Summary.t :=
  let total_invested := py_sum (Order.actual_amount <$> buy_orders) in
  let total_allocated := py_sum (Order.allocated_amount <$> buy_orders) in
  let total_stocks := foldl Z.add 0%Z (Order.quantity <$> buy_orders) in
  let category_breakdown := foldl add_to_breakdown ∅ buy_orders in
  Summary.mk total_allocated total_invested
    (if Qlt_le_dec 0 total_allocated
     then total_invested / total_allocated * 100 else 0)
    total_stocks (length buy_orders) category_breakdown.

(** The orders of a category. *)
Definition orders_of (cat : string) (orders : list Order.t) : list Order.t :=
  filter (fun o => Order.category o = cat) orders.


(** ** More of [TradingStrategy] *)

(** What [KISApi.get_domestic_etf_price] returns when the request goes
    through; the fields the strategy reads. *)
Module Price.
Record t : Type := mk {
  current_price : Q;
  high_52w : Q
}.
End Price.

(** What [KISApi.buy_order] returns when it returns a dictionary: with
    [success] true it carries [order_no], with [success] false only [msg]. *)
Inductive BuyResult : Type :=
  | Accepted (order_no msg : string)
  | Rejected (msg : string).

(** What the strategy asks of its collaborators, in the order it asks. *)
Inductive Event : Type :=
  | BuyOrderSent (code : string) (quantity : Z)
  | TradeRecorded (category_text : string) (order : Order.t)
  | TradeSuccessSent (category_text : string) (order : Order.t)
      (order_no : string)
  | TradeFailureSent (order : Order.t) (error_msg : string)
  | Slept
  | BalanceWarningSent (required balance : Q)
  | PlanAlertSent (order_type : string) (buy_orders : list Order.t).

Definition is_buy_order (e : Event) : option (string * Z) :=
  match e with
  | BuyOrderSent code quantity => Some (code, quantity)
  | _ => None
  end.

Definition is_trade_recorded (e : Event) : bool :=
  match e with TradeRecorded _ _ => true | _ => false end.

Definition is_trade_failure (e : Event) : bool :=
  match e with TradeFailureSent _ _ => true | _ => false end.

Definition is_sleep (e : Event) : bool :=
  match e with Slept => true | _ => false end.

Section Collaborators.
(** The brokerage is outside the program: a call reads and changes a state
    of the world that the strategy does not see. The three calls catch
    their own exceptions and return [None] (or 0 for the balance). The
    recorder and the notifier are taken to return. *)
Variable World : Type.
Variable get_domestic_etf_price : World -> string -> World * option Price.t.
Variable get_balance : World -> World * Q.
Variable buy_order : World -> string -> Z -> World * option BuyResult.

(** [_update_52w_high]: the loop over the active instruments. *)
Definition _update_52w_high (self : PortfolioAllocator)
    (high_52w_cache : gmap string Q) (w : World) : World * gmap string Q :=
  foldl (fun '(w, cache) etf =>
           let code := Etf.code etf in
           match get_domestic_etf_price w code with
           | (w', Some price_data) =>
               (w', <[code := Price.high_52w price_data]> cache)
           | (w', None) => (w', cache)
           end)
        (w, high_52w_cache) (active_etfs self).

(** [_get_current_prices]. *)
Definition _get_current_prices (self : PortfolioAllocator) (w : World)
  : World * gmap string Q :=
  foldl (fun '(w, prices) etf =>
           let code := Etf.code etf in
           match get_domestic_etf_price w code with
           | (w', Some price_data) =>
               (w', <[code := Price.current_price price_data]> prices)
           | (w', None) => (w', prices)
           end)
        (w, ∅) (active_etfs self).



(** ["정기매수" if order_type == 'REGULAR' else "기회매수"]. *)
Definition category_text_of (order_type : string) : string :=
  if decide (order_type = "REGULAR") then "정기매수" else "기회매수".

(** The loop of [_execute_buy_orders] with its accumulators. *)
Fixpoint buy_loop (buy_orders : list Order.t) (category_text : string)
    (w : World) (events : list Event) (success_count fail_count : nat)
  : World * list Event * nat * nat :=
  match buy_orders with
  | [] => (w, events, success_count, fail_count)
  | order :: rest =>
      if decide (Order.quantity order = 0%Z) then
        buy_loop rest category_text w events success_count fail_count
      else
        let sent :=
          BuyOrderSent (Order.code order) (Order.quantity order) in
        match buy_order w (Order.code order) (Order.quantity order) with
        | (w', Some (Accepted order_no _)) =>
            buy_loop rest category_text w'
              (events ++ [sent; TradeRecorded category_text order;
                          TradeSuccessSent category_text order order_no;
                          Slept])
              (S success_count) fail_count
        | (w', Some (Rejected msg)) =>
            buy_loop rest category_text w'
              (events ++ [sent; TradeFailureSent order msg; Slept])
              success_count (S fail_count)
        | (w', None) =>
            buy_loop rest category_text w'
              (events ++ [sent; TradeFailureSent order "알 수 없는 오류";
                          Slept])
              success_count (S fail_count)
        end
  end.

(** [_execute_buy_orders]: the world and the events after the call, and the
    returned [success_count > 0]. *)
Definition _execute_buy_orders (buy_orders : list Order.t)
    (order_type : string) (w : World) : World * list Event * bool :=
  let '(w', events, success_count, _) :=
    buy_loop buy_orders (category_text_of order_type) w [] 0 0 in
  (w', events, bool_decide (0 < success_count)%nat).

(** [execute_regular_buy]; [required] is
    [strategy['monthly_regular_amount']]. *)
Definition execute_regular_buy (self : TradingStrategy) (required : Q)
    (w : World) : World * list Event * result bool :=
  let '(w1, balance) := get_balance w in
  if Qlt_le_dec balance required then
    (w1, [BalanceWarningSent required balance], Ok false)
  else
    let '(w2, current_prices) := _get_current_prices (allocator self) w1 in
    if decide (size current_prices = 0%nat) then (w2, [], Ok false)
    else
      match calculate_allocation (allocator self) required "REGULAR" with
      | Raise e => (w2, [], Raise e)
      | Ok allocations =>
          match calculate_buy_quantities allocations current_prices with
          | Raise e => (w2, [], Raise e)
          | Ok buy_orders =>
              if auto_trade self then
                let '(w3, events, success) :=
                  _execute_buy_orders buy_orders "REGULAR" w2 in
                (w3, events, Ok success)
              else
                (w2, [PlanAlertSent "REGULAR" buy_orders], Ok true)
          end
      end.
End Collaborators.

(** The two guards at the head of [ETFAutoInvestor.check_dip_buy], on the
    weekday (Monday is 0), the hour and the minute of [datetime.now()]:
    true when the check goes on. *)
Definition dip_check_runs (weekday hour minute : Z) : bool :=
  if (5 <=? weekday)%Z then false
  else if negb (((9 <=? hour)%Z && (hour <? 15)%Z)
                || ((hour =? 15)%Z && (minute <=? 30)%Z))
  then false
  else true.


(** A price feed that is down, and one that quotes every code at 90 with a
    52-week high of 100. *)
Definition feed_down (w : unit) (code : string) : unit * option Price.t :=
  (w, None).
Definition feed_90 (w : unit) (code : string) : unit * option Price.t :=
  (w, Some (Price.mk 90 100)).

(** The code and quantity of an order. *)
Definition order_key (o : Order.t) : string * Z :=
  (Order.code o, Order.quantity o).

(** The orders [_execute_buy_orders] does not skip. *)
Definition submitted (buy_orders : list Order.t) : list Order.t :=
  filter (fun o => Order.quantity o <> 0%Z) buy_orders.

(** A brokerage that rejects every order, and a balance of 1000000. *)
Definition broker_rejects (w : unit) (code : string) (quantity : Z)
  : unit * option BuyResult :=
  (w, Some (Rejected "rejected")).
Definition balance_1000000 (w : unit) : unit * Q := (w, 1000000).

(** The number of events of a kind. *)
Definition count_of (p : Event -> bool) (events : list Event) : nat :=
  length (filter (fun e => p e = true) events).

(** A strategy that trades by itself over the universe of the scenario. *)
Definition regular_strategy : TradingStrategy :=
  mkStrategy scenario_allocator 250000 true.

(** Flagged: A, at 90 against a high of 100. *)
Definition opportunity_A_90 : Opp.t := Opp.mk "A" "A" 90 100 (-10) "UNKNOWN".

(** * Properties *)

(** ** The [result] monad *)

Lemma bind_Ok {A B : Type} (m : result A) (f : A -> result B) (b : B) :
  m ≫= f = Ok b -> exists a, m = Ok a /\ f a = Ok b.
Proof. destruct m as [a|e]; simpl; [eauto | discriminate]. Qed.

Lemma mapM_Ok_Forall2 {A B : Type} (f : A -> result B) (l : list A)
    (k : list B) :
  mapM f l = Ok k -> Forall2 (fun a b => f a = Ok b) l k.
Proof.
  revert k; induction l as [|a l IH]; intros k H; simpl in H.
  - injection H as <-. constructor.
  - apply bind_Ok in H as (b & Hb & H).
    apply bind_Ok in H as (k' & Hk & H).
    injection H as <-. constructor; auto.
Qed.

Lemma py_div_Ok (a b : Q) : ~ b == 0 -> py_div a b = Ok (a / b)%Q.
Proof.
  intros Hb. unfold py_div. destruct (Qeq_bool b 0) eqn:E; [|reflexivity].
  apply Qeq_bool_iff in E. contradiction.
Qed.

Lemma py_div_inv (a b q : Q) :
  py_div a b = Ok q -> ~ b == 0 /\ q = (a / b)%Q.
Proof.
  unfold py_div. destruct (Qeq_bool b 0) eqn:E; [discriminate|].
  intros [= <-]. split; [|reflexivity].
  intros Hb. apply Qeq_bool_iff in Hb. congruence.
Qed.

(** ** Truncation *)

Lemma py_int_floor (x : Q) : 0 <= x -> py_int x = Qfloor x.
Proof.
  intros Hx. unfold py_int, Qfloor. destruct x as [n d]; simpl.
  apply Z.quot_div_nonneg; [|lia].
  unfold Qle in Hx; simpl in Hx. lia.
Qed.

(** For a non-negative amount and a positive price the truncated quotient
    leaves a remainder in [[0, price)]. *)
Lemma truncation_bounds (amount price : Q) :
  0 <= amount -> 0 < price ->
  let quantity := py_int (amount / price) in
  (0 <= quantity)%Z /\
  0 <= amount - inject_Z quantity * price /\
  amount - inject_Z quantity * price < price.
Proof.
  intros Ha Hp quantity.
  assert (Hq : 0 <= amount / price).
  { apply Qle_shift_div_l; [assumption|]. lra. }
  assert (Hfl : quantity = Qfloor (amount / price))
    by (apply py_int_floor; assumption).
  pose proof (Qfloor_le (amount / price)) as Hlo.
  pose proof (Qlt_floor (amount / price)) as Hhi.
  rewrite <- Hfl in Hlo, Hhi.
  rewrite inject_Z_plus in Hhi.
  assert (Heq : amount == (amount / price) * price) by (field; lra).
  split; [|split].
  - rewrite Hfl. change 0%Z with (Qfloor 0).
    apply Qfloor_resp_le; assumption.
  - assert (inject_Z quantity * price <= (amount / price) * price)
      by (apply Qmult_le_compat_r; lra).
    lra.
  - assert ((amount / price) * price < (inject_Z quantity + inject_Z 1) * price)
      by (apply Qmult_lt_compat_r; assumption).
    change (inject_Z 1) with 1 in *. lra.
Qed.

(** ** Sums *)

Lemma fold_left_Qplus_acc (l : list Q) (a : Q) :
  fold_left Qplus l a == a + fold_left Qplus l 0.
Proof.
  revert a; induction l as [|x l IH]; intros a; simpl.
  - lra.
  - rewrite (IH (a + x)), (IH (0 + x)). lra.
Qed.


Lemma py_sum_cons (x : Q) (l : list Q) : py_sum (x :: l) == x + py_sum l.
Proof.
  unfold py_sum; simpl. rewrite fold_left_Qplus_acc. lra.
Qed.

Lemma total_nil {A : Type} (f : A -> Q) : total f [] == 0.
Proof. reflexivity. Qed.

Lemma total_cons {A : Type} (f : A -> Q) (x : A) (l : list A) :
  total f (x :: l) == f x + total f l.
Proof. unfold total. rewrite fmap_cons. apply py_sum_cons. Qed.

(** ** [sorted] *)

Lemma insert_by_Permutation {A : Type} (key : A -> Z) (x : A) (l : list A) :
  insert_by key x l ≡ₚ x :: l.
Proof.
  induction l as [|y l IH]; simpl; [reflexivity|].
  destruct (key x <=? key y)%Z; [reflexivity|].
  rewrite IH. apply Permutation_swap.
Qed.

Lemma sorted_Permutation {A : Type} (key : A -> Z) (l : list A) :
  sorted key l ≡ₚ l.
Proof.
  induction l as [|x l IH]; simpl; [reflexivity|].
  rewrite insert_by_Permutation. now rewrite IH.
Qed.

Lemma total_Permutation {A : Type} (f : A -> Q) (l k : list A) :
  l ≡ₚ k -> total f l == total f k.
Proof.
  induction 1 as [|x l k _ IH|x y l|l k m _ IH1 _ IH2].
  - reflexivity.
  - rewrite !total_cons, IH. reflexivity.
  - rewrite !total_cons. lra.
  - now rewrite IH1.
Qed.

Lemma total_sorted {A : Type} (f : A -> Q) (key : A -> Z) (l : list A) :
  total f (sorted key l) == total f l.
Proof. apply total_Permutation, sorted_Permutation. Qed.

Lemma insert_by_ascending {A : Type} (key : A -> Z) (x : A) (l : list A) :
  Sorted Z.le (key <$> l) -> Sorted Z.le (key <$> insert_by key x l).
Proof.
  induction l as [|y l IH]; simpl; intros Hs.
  - repeat constructor.
  - destruct (key x <=? key y)%Z eqn:E.
    + constructor; [exact Hs|]. constructor. lia.
    + apply Sorted_inv in Hs as [Hs Hhd].
      constructor; [auto|].
      destruct l as [|z l]; simpl in *.
      * constructor. lia.
      * destruct (key x <=? key z)%Z; constructor; try lia.
        now apply HdRel_inv in Hhd.
Qed.

Lemma sorted_ascending {A : Type} (key : A -> Z) (l : list A) :
  Sorted Z.le (key <$> sorted key l).
Proof.
  induction l as [|x l IH]; simpl; [constructor|].
  now apply insert_by_ascending.
Qed.

(** ** Remainder redistribution *)

Lemma granted_fields (o o' : Order.t) :
  granted o o' ->
  Order.code o' = Order.code o /\
  Order.allocated_amount o' = Order.allocated_amount o /\
  Order.current_price o' = Order.current_price o /\
  Order.remainder o' = Order.remainder o /\
  Order.priority o' = Order.priority o /\
  (Order.quantity o <= Order.quantity o')%Z /\
  Order.actual_amount o' - Order.actual_amount o
    == inject_Z (Order.quantity o' - Order.quantity o) * Order.current_price o.
Proof.
  intros [->|(extra & Hpos & ->)]; simpl.
  - repeat split; try lia. rewrite Z.sub_diag. change (inject_Z 0) with 0. lra.
  - repeat split; try lia.
    replace (Order.quantity o + extra - Order.quantity o)%Z with extra by lia.
    lra.
Qed.

Lemma redistribute_granted (orders : list Order.t) :
  forall (R : Q) (orders' : list Order.t) (final : Q),
  _redistribute_remainder_state orders R = Ok (orders', final) ->
  Forall2 granted orders orders'.
Proof.
  induction orders as [|o rest IH]; intros R orders' final H; simpl in H.
  - injection H as <- _. constructor.
  - destruct (Qlt_le_dec R (Order.current_price o)) as [Hlo|Hhi].
    + injection H as <- _. apply Forall2_same_length_lookup_2; [reflexivity|].
      intros i x y Hx Hy. rewrite Hx in Hy. injection Hy as <-. now left.
    + apply bind_Ok in H as (q & _ & H).
      destruct (0 <? py_int q)%Z eqn:E;
        apply bind_Ok in H as ([rest' final'] & Hrest & H);
        injection H as <- _; constructor; eauto.
      * right. exists (py_int q). split; [lia|reflexivity].
      * now left.
Qed.

Lemma redistribute_conserves (orders : list Order.t) :
  forall (R : Q) (orders' : list Order.t) (final : Q),
  _redistribute_remainder_state orders R = Ok (orders', final) ->
  total Order.actual_amount orders' + final
    == total Order.actual_amount orders + R.
Proof.
  induction orders as [|o rest IH]; intros R orders' final H; simpl in H.
  - injection H as <- <-. reflexivity.
  - destruct (Qlt_le_dec R (Order.current_price o)) as [Hlo|Hhi].
    + injection H as <- <-. reflexivity.
    + apply bind_Ok in H as (q & _ & H).
      destruct (0 <? py_int q)%Z;
        apply bind_Ok in H as ([rest' final'] & Hrest & H);
        injection H as <- <-; apply IH in Hrest;
        rewrite !total_cons; simpl; lra.
Qed.

Lemma redistribute_total (orders : list Order.t) :
  Forall (fun o => ~ Order.current_price o == 0) orders ->
  forall R : Q, exists res, _redistribute_remainder_state orders R = Ok res.
Proof.
  induction 1 as [|o rest Hp _ IH]; intros R; simpl.
  - eexists; reflexivity.
  - destruct (Qlt_le_dec R (Order.current_price o)) as [Hlo|Hhi];
      [eexists; reflexivity|].
    rewrite (py_div_Ok _ _ Hp); simpl.
    destruct (0 <? _)%Z.
    + destruct (IH (R - inject_Z (py_int (R / Order.current_price o))
                        * Order.current_price o)) as ([? ?] & ->).
      eexists; reflexivity.
    + destruct (IH R) as ([? ?] & ->). eexists; reflexivity.
Qed.


(** ** The first loop of quantity resolution *)

Lemma resolved_cons (a : Alloc.t) (rest : list Alloc.t)
    (prices : gmap string Q) :
  resolved (a :: rest) prices =
  match prices !! Alloc.code a with
  | Some price =>
      make_order a price (py_int (Alloc.allocated_amount a / price))
      :: resolved rest prices
  | None => resolved rest prices
  end.
Proof. unfold resolved; simpl. destruct (prices !! _); reflexivity. Qed.

Lemma resolve_lines_Ok (allocations : list Alloc.t) (prices : gmap string Q) :
  forall (acc orders : list Order.t) (R R' : Q),
  resolve_lines allocations prices acc R = Ok (orders, R') ->
  orders = acc ++ resolved allocations prices /\
  R' == R + total Order.remainder (resolved allocations prices).
Proof.
  induction allocations as [|a rest IH]; intros acc orders R R' H; simpl in H.
  - injection H as <- <-. unfold resolved; simpl.
    rewrite app_nil_r, total_nil. split; [reflexivity|lra].
  - rewrite resolved_cons.
    destruct (prices !! Alloc.code a) as [price|] eqn:Hp.
    + apply bind_Ok in H as (q & Hq & H).
      apply py_div_inv in Hq as [_ ->].
      apply IH in H as [-> H]. rewrite <- app_assoc. split; [reflexivity|].
      rewrite H, total_cons. simpl. lra.
    + now apply IH in H.
Qed.

Lemma resolve_lines_total (allocations : list Alloc.t) (prices : gmap string Q) :
  (forall a p, a ∈ allocations -> prices !! Alloc.code a = Some p -> ~ p == 0) ->
  forall (acc : list Order.t) (R : Q),
  exists res, resolve_lines allocations prices acc R = Ok res.
Proof.
  induction allocations as [|a rest IH]; intros Hp acc R; simpl.
  - eexists; reflexivity.
  - destruct (prices !! Alloc.code a) as [price|] eqn:E.
    + rewrite (py_div_Ok _ price); [|eapply Hp; [left|exact E]]. simpl.
      apply IH. intros b p Hb. apply Hp. now right.
    + apply IH. intros b p Hb. apply Hp. now right.
Qed.

Lemma resolve_lines_zero_price (allocations : list Alloc.t)
    (prices : gmap string Q) :
  (exists a p, a ∈ allocations /\ prices !! Alloc.code a = Some p /\ p == 0) ->
  forall (acc : list Order.t) (R : Q),
  resolve_lines allocations prices acc R = Raise ZeroDivisionError.
Proof.
  induction allocations as [|a rest IH]; intros (b & p & Hb & Hp & Hz) acc R.
  - inversion Hb.
  - simpl. destruct (prices !! Alloc.code a) as [price|] eqn:E.
    + unfold py_div. destruct (Qeq_bool price 0) eqn:Ez; [reflexivity|].
      simpl. apply IH. exists b, p. split; [|auto].
      apply elem_of_cons in Hb as [->|Hb]; [|assumption].
      rewrite E in Hp. injection Hp as ->.
      apply Qeq_bool_iff in Hz. congruence.
    + apply IH. exists b, p. split; [|auto].
      apply elem_of_cons in Hb as [->|Hb]; [congruence|assumption].
Qed.

Lemma resolved_balance (allocations : list Alloc.t) (prices : gmap string Q) :
  total Order.actual_amount (resolved allocations prices)
  + total Order.remainder (resolved allocations prices)
  == total Order.allocated_amount (resolved allocations prices).
Proof.
  induction allocations as [|a rest IH].
  - unfold resolved; simpl. rewrite !total_nil. lra.
  - rewrite resolved_cons.
    destruct (prices !! Alloc.code a) as [price|]; [|exact IH].
    rewrite !total_cons; simpl. lra.
Qed.


Lemma resolved_codes (allocations : list Alloc.t) (prices : gmap string Q) :
  Order.code <$> resolved allocations prices
  = Alloc.code <$> filter (priced prices) allocations.
Proof.
  induction allocations as [|a rest IH]; [reflexivity|].
  rewrite resolved_cons, filter_cons.
  destruct (decide (priced prices a)) as [[price Hp]|Hn].
  - rewrite Hp, !fmap_cons, IH. reflexivity.
  - destruct (prices !! Alloc.code a) as [price|] eqn:E; [|exact IH].
    exfalso. apply Hn. unfold priced. rewrite E. eauto.
Qed.

(** Every appended order is [make_order] of a line with a listed price. *)
Lemma resolved_inv (allocations : list Alloc.t) (prices : gmap string Q) :
  Forall (fun o => exists a price,
            a ∈ allocations /\ prices !! Alloc.code a = Some price /\
            o = make_order a price (py_int (Alloc.allocated_amount a / price)))
         (resolved allocations prices).
Proof.
  induction allocations as [|a rest IH]; [constructor|].
  rewrite resolved_cons.
  assert (Hrest : Forall (fun o => exists b price,
            b ∈ a :: rest /\ prices !! Alloc.code b = Some price /\
            o = make_order b price (py_int (Alloc.allocated_amount b / price)))
         (resolved rest prices)).
  { eapply Forall_impl; [exact IH|]. intros o (b & price & Hb & Hp & ->).
    exists b, price. split; [now right|auto]. }
  destruct (prices !! Alloc.code a) as [price|] eqn:E; [|exact Hrest].
  constructor; [|exact Hrest].
  exists a, price. split; [now left|auto].
Qed.

(** ** [calculate_buy_quantities] as a whole *)

Lemma calculate_buy_quantities_state_inv (allocations : list Alloc.t)
    (prices : gmap string Q) (orders : list Order.t) (final : Q) :
  calculate_buy_quantities_state allocations prices = Ok (orders, final) ->
  Forall2 granted (sorted Order.priority (resolved allocations prices)) orders /\
  total Order.actual_amount orders + final
    == total Order.allocated_amount (resolved allocations prices).
Proof.
  unfold calculate_buy_quantities_state. intros H.
  apply bind_Ok in H as ([buy_orders R] & Hloop & H).
  apply resolve_lines_Ok in Hloop as [-> HR]. simpl in HR.
  rewrite Qplus_0_l in HR. simpl in H.
  pose proof (resolved_balance allocations prices) as Hbal.
  destruct (Qlt_le_dec 0 R) as [Hpos|Hneg].
  - split; [eapply redistribute_granted; exact H|].
    apply redistribute_conserves in H. rewrite H, total_sorted, HR. exact Hbal.
  - injection H as <- <-. split.
    + apply Forall2_same_length_lookup_2; [reflexivity|].
      intros i x y Hx Hy. rewrite Hx in Hy. injection Hy as <-. now left.
    + rewrite total_sorted, HR. exact Hbal.
Qed.

Lemma calculate_buy_quantities_state_total (allocations : list Alloc.t)
    (prices : gmap string Q) :
  (forall a p, a ∈ allocations -> prices !! Alloc.code a = Some p -> ~ p == 0) ->
  exists res, calculate_buy_quantities_state allocations prices = Ok res.
Proof.
  intros Hp. unfold calculate_buy_quantities_state.
  destruct (resolve_lines_total allocations prices Hp [] 0) as ([os R] & Hloop).
  rewrite Hloop; simpl.
  destruct (Qlt_le_dec 0 R) as [Hpos|Hneg]; [|eexists; reflexivity].
  apply redistribute_total.
  apply resolve_lines_Ok in Hloop as [-> _]. simpl.
  rewrite sorted_Permutation.
  eapply Forall_impl; [apply resolved_inv|].
  intros o (a & price & Ha & Hprice & ->). simpl. eauto.
Qed.


Lemma Forall2_granted_fmap {B : Type} (f : Order.t -> B) (l k : list Order.t) :
  (forall o o', granted o o' -> f o' = f o) ->
  Forall2 granted l k -> f <$> k = f <$> l.
Proof.
  intros Hf. induction 1 as [|o o' l k Hg _ IH]; [reflexivity|].
  rewrite !fmap_cons, IH, (Hf _ _ Hg). reflexivity.
Qed.

Lemma Forall2_granted_Forall (P : Order.t -> Prop) (l k : list Order.t) :
  (forall o o', granted o o' -> P o -> P o') ->
  Forall2 granted l k -> Forall P l -> Forall P k.
Proof.
  intros HP. induction 1 as [|o o' l k Hg _ IH]; intros Hl; [constructor|].
  apply Forall_cons in Hl as [Ho Hl]. constructor; eauto.
Qed.


(** ** The end-to-end scenario *)

Lemma scenario_run_outcome : scenario_run = scenario_outcome.
Proof. vm_compute. reflexivity. Qed.

(** C1 (as amended). In the scenario the allocation gives A 200000 and
    B 100000; resolution buys 1 unit of A (150000) and 2 units of B (80000);
    the remainder 70000 is below the price of A, the first order, so the pass
    stops there: B stays at 2 units and 70000 is left unspent. *)
Theorem end_to_end_scenario :
  exists orders final,
    scenario_run = Ok (orders, final) /\
    plan_is orders final [("A", 1%Z, 150000); ("B", 2%Z, 80000)] 70000.
Proof.
  rewrite scenario_run_outcome. unfold scenario_outcome.
  eexists _, _. split; [reflexivity|].
  split; [|reflexivity].
  repeat constructor.
Qed.

(** C1, as the specification states it, does not hold: the run does not end
    with B at 3 units (120000) and 30000 unspent. *)
Lemma end_to_end_scenario_as_specified_fails :
  ~ exists orders final,
      scenario_run = Ok (orders, final) /\
      plan_is orders final [("A", 1%Z, 150000); ("B", 3%Z, 120000)] 30000.
Proof.
  intros (orders & final & Hrun & _ & Hfinal).
  rewrite scenario_run_outcome in Hrun. unfold scenario_outcome in Hrun.
  injection Hrun as <- <-. revert Hfinal. unfold Qeq; simpl. lia.
Qed.

(** ** Conservation of money *)


Lemma prices_60_positive (code : string) (price : Q) :
  prices_60 !! code = Some price -> 0 < price.
Proof.
  unfold prices_60. intros H.
  apply lookup_insert_Some in H as [[_ <-]|[_ H]]; [reflexivity|].
  apply lookup_insert_Some in H as [[_ <-]|[_ H]]; [reflexivity|].
  rewrite lookup_empty in H. discriminate.
Defined.


(** ** The fields of a returned order *)

Lemma make_order_invariant (a : Alloc.t) (price : Q) :
  0 <= Alloc.allocated_amount a -> 0 < price ->
  order_invariant
    (make_order a price (py_int (Alloc.allocated_amount a / price))).
Proof.
  intros Ha Hp.
  destruct (truncation_bounds _ _ Ha Hp) as (Hq & Hlo & Hhi).
  unfold order_invariant; simpl.
  repeat split; try lia; try lra.
  rewrite Z.sub_diag. change (inject_Z 0) with 0. lra.
Qed.

Lemma granted_invariant (o o' : Order.t) :
  granted o o' -> order_invariant o -> order_invariant o'.
Proof.
  intros [->|(extra & Hpos & ->)]; [auto|].
  unfold order_invariant; simpl.
  intros (Hq & Hact & Hrem & Hlo & Hhi & Hbal).
  repeat split; try lia; try lra.
  - rewrite inject_Z_plus, Hact. lra.
  - replace (Order.quantity o + extra
             - py_int (Order.allocated_amount o / Order.current_price o))%Z
      with ((Order.quantity o
             - py_int (Order.allocated_amount o / Order.current_price o))
            + extra)%Z by lia.
    rewrite inject_Z_plus. lra.
Qed.

(** C3 (as amended). For non-negative allocated amounts and positive
    prices, quantity resolution returns, and every returned order has
    [actual_amount = quantity * current_price] and keeps in [remainder] the
    rounding remainder of its own line, [allocated_amount - units *
    current_price] with [0 <= remainder < current_price], where [units] is
    the truncated quotient; [allocated_amount - actual_amount] is that
    remainder minus the price of the units granted by redistribution. *)
Theorem returned_orders_invariant (allocations : list Alloc.t)
    (current_prices : gmap string Q) :
  (forall a, a ∈ allocations -> 0 <= Alloc.allocated_amount a) ->
  (forall code price, current_prices !! code = Some price -> 0 < price) ->
  exists orders,
    calculate_buy_quantities allocations current_prices = Ok orders /\
    Forall order_invariant orders.
Proof.
  intros Hamount Hpos. unfold calculate_buy_quantities.
  destruct (calculate_buy_quantities_state_total allocations current_prices)
    as ([orders final] & Hrun).
  { intros a p _ Hp Hz. apply Hpos in Hp. lra. }
  rewrite Hrun. exists orders. split; [reflexivity|].
  apply calculate_buy_quantities_state_inv in Hrun as [Hg _].
  eapply Forall2_granted_Forall; [exact granted_invariant|exact Hg|].
  rewrite sorted_Permutation.
  eapply Forall_impl; [apply resolved_inv|].
  intros o (a & price & Ha & Hp & ->).
  apply make_order_invariant; eauto.
Qed.

Lemma two_lines_nonnegative (a : Alloc.t) :
  a ∈ two_lines -> 0 <= Alloc.allocated_amount a.
Proof.
  unfold two_lines. intros H.
  apply elem_of_cons in H as [->|H]; [discriminate|].
  apply elem_of_cons in H as [->|H]; [discriminate|].
  inversion H.
Defined.

Lemma returned_orders_invariant_witness :
  (forall a, a ∈ two_lines -> 0 <= Alloc.allocated_amount a) /\
  (forall code price, prices_60 !! code = Some price -> 0 < price) /\
  exists orders,
    calculate_buy_quantities two_lines prices_60 = Ok orders /\
    Forall order_invariant orders.
Proof.
  split; [exact two_lines_nonnegative|].
  split; [exact prices_60_positive|].
  exact (returned_orders_invariant two_lines prices_60
           two_lines_nonnegative prices_60_positive).
Defined.

(** C3, as the specification states it, does not hold: with two lines of
    100 at price 60 the remainders are 40 and 40, redistribution grants the
    first order one more unit, and that order ends with allocated 100,
    actual 120 and [remainder] still 40. *)
Lemma remainder_is_not_allocated_minus_actual :
  exists orders,
    calculate_buy_quantities two_lines prices_60 = Ok orders /\
    ~ Forall (fun o =>
                Order.remainder o
                  == Order.allocated_amount o - Order.actual_amount o /\
                0 <= Order.remainder o /\
                Order.remainder o < Order.current_price o)
             orders.
Proof.
  assert (Hrun : calculate_buy_quantities two_lines prices_60 = two_lines_orders)
    by (vm_compute; reflexivity).
  rewrite Hrun. unfold two_lines_orders. eexists. split; [reflexivity|].
  intros H. apply Forall_cons in H as [(H & _) _]. simpl in H.
  revert H. unfold Qeq; simpl. lia.
Qed.

(** ** Prices that are missing, zero or negative *)

(** C5 (as amended). Quantity resolution has no check on the sign of a
    price. It fails exactly when some line's code maps to the price 0, and
    then with [ZeroDivisionError] raised by the division. When no priced
    line has the price 0 (negative prices included) it returns, with one
    order for each line whose code has a price: a line whose code is
    missing from the price map is skipped and the others go through. *)
Theorem price_errors_of_quantity_resolution (allocations : list Alloc.t)
    (current_prices : gmap string Q) :
  ((exists a price, a ∈ allocations /\
      current_prices !! Alloc.code a = Some price /\ price == 0) ->
   calculate_buy_quantities allocations current_prices
     = Raise ZeroDivisionError) /\
  ((forall a price, a ∈ allocations ->
      current_prices !! Alloc.code a = Some price -> ~ price == 0) ->
   exists orders,
     calculate_buy_quantities allocations current_prices = Ok orders /\
     Order.code <$> orders
       ≡ₚ Alloc.code <$> filter (priced current_prices) allocations).
Proof.
  split.
  - intros Hzero. unfold calculate_buy_quantities, calculate_buy_quantities_state.
    rewrite (resolve_lines_zero_price _ _ Hzero). reflexivity.
  - intros Hnz. unfold calculate_buy_quantities.
    destruct (calculate_buy_quantities_state_total _ _ Hnz)
      as ([orders final] & Hrun).
    rewrite Hrun. exists orders. split; [reflexivity|].
    apply calculate_buy_quantities_state_inv in Hrun as [Hg _].
    rewrite (Forall2_granted_fmap Order.code _ _
               (fun o o' Hoo => proj1 (granted_fields o o' Hoo)) Hg).
    rewrite sorted_Permutation, resolved_codes. reflexivity.
Qed.

Lemma negative_price_nonzero (a : Alloc.t) (price : Q) :
  a ∈ two_lines -> negative_price !! Alloc.code a = Some price -> ~ price == 0.
Proof.
  unfold negative_price. intros _ H.
  apply lookup_insert_Some in H as [[_ <-]|[_ H]]; [discriminate|].
  rewrite lookup_empty in H. discriminate.
Defined.

Lemma zero_price_listed :
  exists a price, a ∈ two_lines /\
    zero_price !! Alloc.code a = Some price /\ price == 0.
Proof.
  exists (Alloc.mk "A" "A" "UNKNOWN" 100 (1 # 2) 1%Z None), 0.
  split; [left|]. split; reflexivity.
Defined.

Lemma price_errors_of_quantity_resolution_witness :
  calculate_buy_quantities two_lines zero_price = Raise ZeroDivisionError /\
  exists orders,
    calculate_buy_quantities two_lines negative_price = Ok orders /\
    Order.code <$> orders
      ≡ₚ Alloc.code <$> filter (priced negative_price) two_lines.
Proof.
  split.
  - exact (proj1 (price_errors_of_quantity_resolution two_lines zero_price)
             zero_price_listed).
  - exact (proj2 (price_errors_of_quantity_resolution two_lines negative_price)
             negative_price_nonzero).
Defined.

(** C5, as the specification states it, does not hold: a line whose code
    maps to the price -50 does not make quantity resolution fail; it
    returns one order, for -2 units. *)
Lemma negative_price_is_not_rejected :
  (exists a price, a ∈ two_lines /\
     negative_price !! Alloc.code a = Some price /\ price <= 0) /\
  exists o,
    calculate_buy_quantities two_lines negative_price = Ok [o] /\
    Order.code o = "A" /\ Order.quantity o = (-2)%Z.
Proof.
  split.
  - exists (Alloc.mk "A" "A" "UNKNOWN" 100 (1 # 2) 1%Z None), (-50).
    split; [left|]. split; [reflexivity|discriminate].
  - assert (Hrun : calculate_buy_quantities two_lines negative_price
                   = negative_price_orders) by (vm_compute; reflexivity).
    rewrite Hrun. unfold negative_price_orders.
    eexists. split; [reflexivity|]. split; reflexivity.
Qed.

(** ** The forward pass *)



(** ** Unknown method names *)

Ltac not_listed :=
  let H := fresh "H" in
  intros H; repeat (apply elem_of_cons in H as [H|H]; [discriminate H|]);
  inversion H.

(** C7 (as amended). In REGULAR mode a method name other than EQUAL,
    WEIGHTED and CUSTOM raises [ValueError]. In DIP mode a method name other
    than FOCUS, EQUAL and WEIGHTED is not an error: the last branch of
    [_calculate_dip_allocation] allocates equally. *)
Theorem unknown_method_names (self : PortfolioAllocator) (total_amount : Q) :
  (allocation_method self ∉ ["EQUAL"; "WEIGHTED"; "CUSTOM"] ->
   calculate_allocation self total_amount "REGULAR"
     = Raise (ValueError
                ("Unknown allocation method: " +:+ allocation_method self))) /\
  (forall dip_method,
     dip_allocation_method self = Some dip_method ->
     dip_method ∉ ["FOCUS"; "EQUAL"; "WEIGHTED"] ->
     calculate_allocation self total_amount "DIP"
       = _equal_allocation self total_amount).
Proof.
  split.
  - intros Hm. unfold calculate_allocation, _calculate_regular_allocation.
    simpl. repeat case_decide; try reflexivity; exfalso; apply Hm;
      match goal with H : allocation_method self = _ |- _ => rewrite H end;
      repeat constructor.
  - intros dip_method Hcfg Hm.
    unfold calculate_allocation, _calculate_dip_allocation.
    rewrite Hcfg. simpl. repeat case_decide; try reflexivity.
    exfalso; apply Hm; subst; repeat constructor.
Qed.

Lemma unknown_method_names_witness :
  calculate_allocation (allocator_with "BEST" (Some "BEST")) 300000 "REGULAR"
    = Raise (ValueError "Unknown allocation method: BEST") /\
  calculate_allocation (allocator_with "BEST" (Some "BEST")) 300000 "DIP"
    = _equal_allocation (allocator_with "BEST" (Some "BEST")) 300000.
Proof.
  split.
  - apply (proj1 (unknown_method_names
                    (allocator_with "BEST" (Some "BEST")) 300000)).
    simpl. not_listed.
  - apply (proj2 (unknown_method_names
                    (allocator_with "BEST" (Some "BEST")) 300000) "BEST").
    + reflexivity.
    + not_listed.
Defined.

(** C7, as the specification states it, does not hold: in DIP mode the
    method name BEST raises nothing and gives each of the two instruments
    150000. *)
Lemma unknown_dip_method_is_not_an_error :
  ("BEST" ∉ ["FOCUS"; "EQUAL"; "WEIGHTED"]) /\
  exists a b,
    calculate_allocation (allocator_with "EQUAL" (Some "BEST")) 300000 "DIP"
      = Ok [a; b] /\
    Alloc.allocated_amount a == 150000 /\ Alloc.allocated_amount b == 150000.
Proof.
  split; [not_listed|].
  assert (Hrun : calculate_allocation (allocator_with "EQUAL" (Some "BEST"))
                   300000 "DIP" = unknown_dip_allocations)
    by (vm_compute; reflexivity).
  rewrite Hrun. unfold unknown_dip_allocations.
  eexists _, _. split; [reflexivity|]. split; reflexivity.
Qed.

(** ** CUSTOM allocation *)






(** ** Category limits *)






Lemma adjust_line_unlimited (self : PortfolioAllocator)
    (category_totals : gmap string Q) (total_amount : Q) (alloc : Alloc.t) :
  unlimited self (Alloc.category alloc) ->
  adjust_line self category_totals total_amount alloc = Ok alloc.
Proof.
  unfold unlimited, adjust_line.
  destruct (max_limit_of self (Alloc.category alloc)) as [m|]; [|reflexivity].
  intros Hz. destruct (Qeq_dec m 0); [reflexivity|contradiction].
Qed.

Lemma mapM_id {A : Type} (f : A -> result A) (l : list A) :
  Forall (fun a => f a = Ok a) l -> mapM f l = Ok l.
Proof.
  induction 1 as [|a l Ha _ IH]; [reflexivity|].
  simpl. rewrite Ha. simpl. rewrite IH. reflexivity.
Qed.

(** C10. A line whose category has no limit, or the limit 0, goes through
    category-limit application as it is: the loop body returns it
    unchanged, every such line of the input is at the same place in the
    output, and when all lines are such the output is the input. *)
Theorem unlimited_category_is_never_scaled (self : PortfolioAllocator)
    (allocations : list Alloc.t) (total_amount : Q) :
  (forall category_totals alloc,
     unlimited self (Alloc.category alloc) ->
     adjust_line self category_totals total_amount alloc = Ok alloc) /\
  (forall adjusted,
     _apply_category_limits self allocations total_amount = Ok adjusted ->
     forall (i : nat) (alloc : Alloc.t),
       allocations !! i = Some alloc ->
       unlimited self (Alloc.category alloc) ->
       adjusted !! i = Some alloc) /\
  ((forall alloc, alloc ∈ allocations ->
      unlimited self (Alloc.category alloc)) ->
   _apply_category_limits self allocations total_amount = Ok allocations).
Proof.
  split; [|split].
  - intros category_totals alloc. apply adjust_line_unlimited.
  - intros adjusted H i alloc Hi Hun. unfold _apply_category_limits in H.
    destruct (decide (size (category_limits self) = 0%nat)).
    + injection H as <-. exact Hi.
    + apply mapM_Ok_Forall2 in H.
      destruct (Forall2_lookup_l _ _ _ _ _ H Hi) as (b & Hb & Hadj).
      rewrite adjust_line_unlimited in Hadj by exact Hun.
      injection Hadj as <-. exact Hb.
  - intros Hall. unfold _apply_category_limits.
    destruct (decide (size (category_limits self) = 0%nat)); [reflexivity|].
    apply mapM_id. apply Forall_forall. intros a Ha.
    apply adjust_line_unlimited, Hall, Ha.
Qed.

Lemma line_X_unlimited (alloc : Alloc.t) :
  alloc ∈ [line_X] -> unlimited zero_cap_allocator (Alloc.category alloc).
Proof.
  intros H. apply elem_of_cons in H as [->|H]; [reflexivity|inversion H].
Defined.

Lemma unlimited_category_is_never_scaled_witness :
  unlimited zero_cap_allocator "X" /\
  _apply_category_limits zero_cap_allocator [line_X] 100 = Ok [line_X].
Proof.
  split; [reflexivity|].
  exact (proj2 (proj2 (unlimited_category_is_never_scaled
                         zero_cap_allocator [line_X] 100)) line_X_unlimited).
Defined.


Section AdjustLine.
Variable self : PortfolioAllocator.
Variable allocations : list Alloc.t.
Variable total_amount : Q.
Hypothesis total_positive : 0 < total_amount.
Hypothesis amounts_nonnegative :
  forall a, a ∈ allocations -> 0 <= Alloc.allocated_amount a.
Hypothesis limits_nonnegative :
  forall cat max_limit, max_limit_of self cat = Some max_limit -> 0 <= max_limit.

End AdjustLine.









(** ** The universe around a dip buy *)

(** When the planning step raises nothing, the call ends with the object
    as it was; when it raises, the exception leaves the call before the
    restoring assignment and the object keeps the narrowed universe. *)
Lemma execute_dip_buy_state (route : list Order.t -> result bool)
    (self : TradingStrategy) (balance : Q) (opportunities : list Opp.t) :
  match dip_plan self opportunities with
  | Ok _ => fst (execute_dip_buy route self balance opportunities) = self
  | Raise e =>
      opportunities <> [] -> dip_buy_amount self <= balance ->
      execute_dip_buy route self balance opportunities
        = (narrowed self opportunities, Raise e)
  end.
Proof.
  unfold dip_plan, execute_dip_buy, narrowed.
  destruct self as [[method dip limits etfs] amount auto]; simpl.
  destruct opportunities as [|opp opps]; simpl.
  { destruct (calculate_allocation _ _ _ ≫= _); [reflexivity|congruence]. }
  destruct (Qlt_le_dec balance amount) as [Hlow|Hhigh].
  { destruct (calculate_allocation _ _ _ ≫= _); [reflexivity|].
    intros _ Hle. lra. }
  destruct (calculate_allocation _ _ _) as [allocations|e]; simpl;
    [|reflexivity].
  destruct (calculate_buy_quantities _ _) as [orders|e]; reflexivity.
Qed.

(** C9 fails on the code. The planning step divides the amount of A by its
    price 0; [ZeroDivisionError] leaves [execute_dip_buy] before the
    assignment that restores the universe, and the allocator is left with
    the universe [[A]] instead of [[A; B]]. *)
Theorem dip_narrowing_survives_an_exception
    (route : list Order.t -> result bool) :
  let '(after, outcome) :=
    execute_dip_buy route dip_strategy 1000000 [opportunity_A] in
  outcome = Raise ZeroDivisionError /\
  active_etfs (allocator dip_strategy) = [etf_A; etf_B] /\
  active_etfs (allocator after) = [etf_A].
Proof. vm_compute. repeat split. Qed.

(** * Further properties of the allocator *)

(** ** Lines in proportion *)












(** ** WEIGHTED allocation under category limits *)












(** ** The order of the returned lines *)

(** [sorted] keeps the elements of equal key in the order they had. *)
Lemma insert_by_stable {A : Type} (key : A -> Z) (k : Z) (x : A) (l : list A) :
  filter (fun y => key y = k) (insert_by key x l)
  = filter (fun y => key y = k) (x :: l).
Proof.
  induction l as [|y l IH]; simpl; [reflexivity|].
  destruct (key x <=? key y)%Z eqn:E; [reflexivity|].
  rewrite filter_cons, IH, !filter_cons.
  destruct (decide (key y = k)) as [Hy|Hy];
    destruct (decide (key x = k)) as [Hx|Hx]; try reflexivity.
  exfalso. apply Z.leb_gt in E. lia.
Qed.

Lemma sorted_stable {A : Type} (key : A -> Z) (k : Z) (l : list A) :
  filter (fun y => key y = k) (sorted key l) = filter (fun y => key y = k) l.
Proof.
  induction l as [|x l IH]; simpl; [reflexivity|].
  rewrite insert_by_stable, !filter_cons, IH. reflexivity.
Qed.

Lemma mapM_line_of (f : Etf.t -> result Alloc.t) (etfs : list Etf.t)
    (lines : list Alloc.t) :
  (forall etf a, f etf = Ok a -> line_of etf a) ->
  mapM f etfs = Ok lines -> Forall2 line_of etfs lines.
Proof.
  intros Hf H. apply mapM_Ok_Forall2 in H.
  eapply Forall2_impl; [exact H|]. exact Hf.
Qed.

Lemma adjust_line_keeps (self : PortfolioAllocator)
    (category_totals : gmap string Q) (total_amount : Q) (a a' : Alloc.t) :
  adjust_line self category_totals total_amount a = Ok a' ->
  Alloc.code a' = Alloc.code a /\ Alloc.priority a' = Alloc.priority a.
Proof.
  unfold adjust_line.
  destruct (max_limit_of self (Alloc.category a)) as [m|];
    [|intros [= <-]; auto].
  destruct (Qeq_dec m 0); [intros [= <-]; auto|].
  intros H. apply bind_Ok in H as (t & _ & H).
  apply bind_Ok in H as (r & _ & H).
  destruct (Qlt_le_dec m r); [|injection H as <-; auto].
  apply bind_Ok in H as (s & _ & H). injection H as <-. auto.
Qed.

Lemma apply_category_limits_keeps (self : PortfolioAllocator)
    (etfs : list Etf.t) (lines adjusted : list Alloc.t) (total_amount : Q) :
  Forall2 line_of etfs lines ->
  _apply_category_limits self lines total_amount = Ok adjusted ->
  Forall2 line_of etfs adjusted.
Proof.
  unfold _apply_category_limits.
  destruct (decide (size (category_limits self) = 0%nat));
    [intros H [= <-]; exact H|].
  intros HF H. apply mapM_Ok_Forall2 in H.
  revert H. generalize (category_totals_of lines). intros totals H.
  revert adjusted H. induction HF as [|etf a etfs lines [Hc Hp] _ IH];
    intros adjusted H; inversion H as [|? a' ? k Ha Hk]; subst;
    constructor; auto.
  apply adjust_line_keeps in Ha as [Hc' Hp']. split; congruence.
Qed.

Lemma allocation_lines (self : PortfolioAllocator) (total_amount : Q)
    (mode : string) (allocations : list Alloc.t) :
  calculate_allocation self total_amount mode = Ok allocations ->
  exists lines,
    allocations = sorted Alloc.priority lines /\
    Forall2 line_of (active_etfs self) lines.
Proof.
  assert (Hequal : _equal_allocation self total_amount = Ok allocations ->
            exists lines, allocations = sorted Alloc.priority lines /\
                          Forall2 line_of (active_etfs self) lines).
  { unfold _equal_allocation. intros H.
    apply bind_Ok in H as (amount & _ & H).
    apply bind_Ok in H as (lines & Hlines & H). injection H as <-.
    exists lines. split; [reflexivity|].
    eapply mapM_line_of; [|exact Hlines].
    intros etf a Ha. apply bind_Ok in Ha as (r & _ & Ha).
    injection Ha as <-. split; reflexivity. }
  assert (Hweighted : _weighted_allocation self total_amount = Ok allocations ->
            exists lines, allocations = sorted Alloc.priority lines /\
                          Forall2 line_of (active_etfs self) lines).
  { unfold _weighted_allocation. intros H.
    apply bind_Ok in H as (lines & Hlines & H).
    apply bind_Ok in H as (adjusted & Hadj & H). injection H as <-.
    exists adjusted. split; [reflexivity|].
    eapply apply_category_limits_keeps; [|exact Hadj].
    eapply mapM_line_of; [|exact Hlines].
    intros etf a Ha. simpl in Ha. apply bind_Ok in Ha as (r & _ & Ha).
    injection Ha as <-. split; reflexivity. }
  assert (Hcustom : _custom_allocation self total_amount = Ok allocations ->
            exists lines, allocations = sorted Alloc.priority lines /\
                          Forall2 line_of (active_etfs self) lines).
  { unfold _custom_allocation. intros H.
    apply bind_Ok in H as (lines & Hlines & H). injection H as <-.
    exists lines. split; [reflexivity|].
    eapply mapM_line_of; [|exact Hlines].
    intros etf a Ha. apply bind_Ok in Ha as (r & _ & Ha).
    injection Ha as <-. split; reflexivity. }
  unfold calculate_allocation, _calculate_regular_allocation,
    _calculate_dip_allocation.
  repeat case_decide; auto; discriminate.
Qed.

Lemma line_of_filter (p : Z) (etfs : list Etf.t) (lines : list Alloc.t) :
  Forall2 line_of etfs lines ->
  Alloc.code <$> filter (fun a => Alloc.priority a = p) lines
  = Etf.code <$> filter (fun etf => get_priority etf = p) etfs.
Proof.
  induction 1 as [|etf a etfs lines [Hc Hp] _ IH]; [reflexivity|].
  rewrite !filter_cons, Hp.
  destruct (decide (get_priority etf = p)); [|exact IH].
  rewrite !fmap_cons, IH, Hc. reflexivity.
Qed.

Lemma line_of_codes (etfs : list Etf.t) (lines : list Alloc.t) :
  Forall2 line_of etfs lines -> Alloc.code <$> lines = Etf.code <$> etfs.
Proof.
  induction 1 as [|etf a etfs lines [Hc Hp] _ IH]; [reflexivity|].
  rewrite !fmap_cons, IH, Hc. reflexivity.
Qed.

(** X5. Whatever the mode and the method, the lines that allocation
    returns are in ascending order of priority, there is exactly one line
    per active instrument, and instruments of equal priority keep the order
    they have in the universe. *)
Theorem allocation_order (self : PortfolioAllocator) (total_amount : Q)
    (mode : string) (allocations : list Alloc.t) :
  calculate_allocation self total_amount mode = Ok allocations ->
  Sorted Z.le (Alloc.priority <$> allocations) /\
  Alloc.code <$> allocations ≡ₚ Etf.code <$> active_etfs self /\
  (forall p : Z,
     Alloc.code <$> filter (fun a => Alloc.priority a = p) allocations
     = Etf.code <$> filter (fun etf => get_priority etf = p)
                      (active_etfs self)).
Proof.
  intros H. apply allocation_lines in H as (lines & -> & HF).
  split; [apply sorted_ascending|]. split.
  - rewrite sorted_Permutation, (line_of_codes _ _ HF). reflexivity.
  - intros p. rewrite sorted_stable. apply line_of_filter, HF.
Qed.

Lemma allocation_order_witness :
  exists allocations,
    calculate_allocation scenario_allocator 300000 "REGULAR" = Ok allocations /\
    Sorted Z.le (Alloc.priority <$> allocations) /\
    Alloc.code <$> allocations ≡ₚ ["A"; "B"].
Proof.
  eexists. split; [vm_compute; reflexivity|].
  refine (let H := allocation_order scenario_allocator 300000 "REGULAR" _
                     eq_refl in _).
  split; [exact (proj1 H)|exact (proj1 (proj2 H))].
Defined.

(** ** The cash left unspent *)

Lemma inject_Z_mult_nonpositive (n : Z) (p : Q) :
  (n <= 0)%Z -> 0 < p -> inject_Z n * p <= 0.
Proof.
  intros Hn Hp.
  assert (H : inject_Z n <= 0) by (unfold Qle; simpl; lia).
  assert (inject_Z n * p <= 0 * p) by (apply Qmult_le_compat_r; lra).
  lra.
Qed.

Lemma inject_Z_mult_nonnegative (n : Z) (p : Q) :
  (0 <= n)%Z -> 0 < p -> 0 <= inject_Z n * p.
Proof.
  intros Hn Hp. apply Qmult_le_0_compat; [|lra].
  unfold Qle; simpl; lia.
Qed.

(** The remainder only goes down, never below 0, and ends below the price
    of the first order. *)
Lemma redistribute_bounds (orders : list Order.t) :
  Forall (fun o => 0 < Order.current_price o) orders ->
  forall (R : Q) (orders' : list Order.t) (final : Q),
  _redistribute_remainder_state orders R = Ok (orders', final) ->
  final <= R /\
  (0 <= R -> 0 <= final) /\
  (forall o rest, orders = o :: rest -> final < Order.current_price o).
Proof.
  induction 1 as [|o rest Hp _ IH]; intros R orders' final H; simpl in H.
  - injection H as _ <-. repeat split; try lra. intros o rest [=].
  - destruct (Qlt_le_dec R (Order.current_price o)) as [Hlo|Hhi].
    { injection H as _ <-. repeat split; try lra.
      intros o' rest' [= <- _]. exact Hlo. }
    apply bind_Ok in H as (q & Hq & H). apply py_div_inv in Hq as [_ ->].
    assert (HR : 0 <= R) by lra.
    destruct (truncation_bounds R (Order.current_price o) HR Hp)
      as (Hn & Hlow & Hhigh).
    destruct (0 <? py_int (R / Order.current_price o))%Z eqn:E;
      apply bind_Ok in H as ([rest' final'] & Hrest & H);
      injection H as _ <-; apply IH in Hrest as (Hle & Hnonneg & _).
    + pose proof (inject_Z_mult_nonnegative _ _ Hn Hp).
      repeat split; try lra. intros o' rest'' [= <- _]. lra.
    + exfalso. apply Z.ltb_ge in E.
      pose proof (inject_Z_mult_nonpositive _ _ E Hp). lra.
Qed.

Lemma total_nonnegative {A : Type} (f : A -> Q) (l : list A) :
  Forall (fun a => 0 <= f a) l -> 0 <= total f l.
Proof.
  induction 1 as [|a l Ha _ IH]; [rewrite total_nil; lra|].
  rewrite total_cons. lra.
Qed.

Lemma resolved_invariant (allocations : list Alloc.t)
    (prices : gmap string Q) :
  (forall a, a ∈ allocations -> 0 <= Alloc.allocated_amount a) ->
  (forall code price, prices !! code = Some price -> 0 < price) ->
  Forall (fun o => order_invariant o /\ 0 < Order.current_price o)
         (resolved allocations prices).
Proof.
  intros Hamount Hpos. eapply Forall_impl; [apply resolved_inv|].
  intros o (a & price & Ha & Hp & ->). split.
  - apply make_order_invariant; eauto.
  - simpl. eauto.
Qed.

Lemma calculate_buy_quantities_state_bounds (allocations : list Alloc.t)
    (prices : gmap string Q) (orders : list Order.t) (final : Q) :
  (forall a, a ∈ allocations -> 0 <= Alloc.allocated_amount a) ->
  (forall code price, prices !! code = Some price -> 0 < price) ->
  calculate_buy_quantities_state allocations prices = Ok (orders, final) ->
  Forall (fun o => order_invariant o /\ 0 < Order.current_price o) orders /\
  0 <= final /\
  (forall o, head orders = Some o -> final < Order.current_price o).
Proof.
  intros Hamount Hpos Hrun.
  pose proof (resolved_invariant allocations prices Hamount Hpos) as Hinv.
  pose proof Hrun as Hg.
  apply calculate_buy_quantities_state_inv in Hg as [Hg _].
  split.
  { eapply Forall2_granted_Forall; [|exact Hg|].
    - intros o o' Hoo [Hi Hp]. split; [eapply granted_invariant; eauto|].
      destruct (granted_fields o o' Hoo) as (_ & _ & -> & _). exact Hp.
    - rewrite sorted_Permutation. exact Hinv. }
  unfold calculate_buy_quantities_state in Hrun.
  apply bind_Ok in Hrun as ([buy_orders R] & Hloop & Hrun).
  apply resolve_lines_Ok in Hloop as [-> HR]. simpl in HR, Hrun.
  assert (HR0 : 0 <= R).
  { rewrite HR, Qplus_0_l. apply total_nonnegative.
    eapply Forall_impl; [exact Hinv|].
    intros o [(_ & _ & _ & H & _) _]. exact H. }
  assert (Hprices : Forall (fun o => 0 < Order.current_price o)
                      (sorted Order.priority (resolved allocations prices))).
  { rewrite sorted_Permutation. eapply Forall_impl; [exact Hinv|].
    intros o [_ H]. exact H. }
  destruct (Qlt_le_dec 0 R) as [Hgo|Hstay].
  - destruct (redistribute_bounds _ Hprices _ _ _ Hrun) as (_ & Hnn & Hhead).
    split; [auto|]. intros o Ho.
    pose proof (Forall2_length _ _ _ Hg) as Hlen.
    destruct (sorted Order.priority (resolved allocations prices))
      as [|o0 rest] eqn:Es.
    { destruct orders; [discriminate Ho|discriminate Hlen]. }
    inversion Hg as [|? o' ? k Hoo _]; subst. simpl in Ho.
    injection Ho as <-.
    destruct (granted_fields o0 o' Hoo) as (_ & _ & -> & _).
    eapply Hhead. reflexivity.
  - injection Hrun as <- <-. split; [exact HR0|].
    intros o Ho. apply head_Some_elem_of in Ho.
    rewrite Forall_forall in Hprices. specialize (Hprices o Ho). lra.
Qed.

(** X6. When quantity resolution of non-negative amounts at positive
    prices returns, the cash left unspent is not negative and is below the
    price of the first returned order, the one of highest priority: one
    more unit of it cannot be bought. *)
Theorem unspent_cash_bounds (allocations : list Alloc.t)
    (current_prices : gmap string Q) :
  (forall a, a ∈ allocations -> 0 <= Alloc.allocated_amount a) ->
  (forall code price, current_prices !! code = Some price -> 0 < price) ->
  exists orders final,
    calculate_buy_quantities_state allocations current_prices
      = Ok (orders, final) /\
    0 <= final /\
    (forall o, head orders = Some o -> final < Order.current_price o).
Proof.
  intros Hamount Hpos.
  destruct (calculate_buy_quantities_state_total allocations current_prices)
    as ([orders final] & Hrun).
  { intros a p _ Hp Hz. apply Hpos in Hp. lra. }
  exists orders, final. split; [exact Hrun|].
  apply (calculate_buy_quantities_state_bounds _ _ _ _ Hamount Hpos Hrun).
Qed.

Lemma unspent_cash_bounds_witness :
  (forall a, a ∈ two_lines -> 0 <= Alloc.allocated_amount a) /\
  exists orders final,
    calculate_buy_quantities_state two_lines prices_60 = Ok (orders, final) /\
    0 <= final /\
    (forall o, head orders = Some o -> final < Order.current_price o).
Proof.
  split; [exact two_lines_nonnegative|].
  exact (unspent_cash_bounds two_lines prices_60 two_lines_nonnegative
           prices_60_positive).
Defined.

(** X7. Redistribution leaves nothing to redistribute: at positive prices,
    a second pass over its output with its final remainder changes no
    order and no cash. *)
Theorem redistribution_is_idempotent (orders orders' : list Order.t)
    (R final : Q) :
  Forall (fun o => 0 < Order.current_price o) orders ->
  _redistribute_remainder_state orders R = Ok (orders', final) ->
  _redistribute_remainder_state orders' final = Ok (orders', final).
Proof.
  intros Hprices Hrun.
  destruct (redistribute_bounds _ Hprices _ _ _ Hrun) as (_ & _ & Hhead).
  apply redistribute_granted in Hrun.
  inversion Hrun as [|o o' rest rest' Hoo _]; subst; [reflexivity|].
  simpl. destruct (granted_fields o o' Hoo) as (_ & _ & -> & _).
  destruct (Qlt_le_dec final (Order.current_price o)) as [|Hge];
    [reflexivity|].
  specialize (Hhead o rest eq_refl). lra.
Qed.

Lemma redistribution_is_idempotent_witness :
  exists orders' final,
    _redistribute_remainder_state [order_B; order_A] 70000
      = Ok (orders', final) /\
    _redistribute_remainder_state orders' final = Ok (orders', final).
Proof.
  eexists _, _. split; [vm_compute; reflexivity|].
  apply (redistribution_is_idempotent [order_B; order_A] _ 70000).
  - repeat constructor.
  - vm_compute. reflexivity.
Defined.

(** ** [get_portfolio_summary] *)

Lemma orders_of_cons (cat : string) (o : Order.t) (l : list Order.t) :
  orders_of cat (o :: l)
  = if decide (Order.category o = cat) then o :: orders_of cat l
    else orders_of cat l.
Proof. unfold orders_of. rewrite filter_cons. reflexivity. Qed.

Lemma add_to_breakdown_lookup (m : gmap string (Q * nat)) (o : Order.t)
    (cat : string) :
  add_to_breakdown m o !! cat
  = if decide (Order.category o = cat)
    then Some ((default (0, 0%nat) (m !! cat)).1 + Order.actual_amount o,
               S (default (0, 0%nat) (m !! cat)).2)
    else m !! cat.
Proof.
  unfold add_to_breakdown.
  destruct (decide (Order.category o = cat)) as [<-|Hne].
  - apply lookup_insert_eq.
  - apply lookup_insert_ne. exact Hne.
Qed.

Lemma foldl_add_to_breakdown (orders : list Order.t) :
  forall (m : gmap string (Q * nat)) (cat : string),
  let before := default (0, 0%nat) (m !! cat) in
  let after := default (0, 0%nat) (foldl add_to_breakdown m orders !! cat) in
  after.1 == before.1 + total Order.actual_amount (orders_of cat orders) /\
  after.2 = (before.2 + length (orders_of cat orders))%nat /\
  (is_Some (foldl add_to_breakdown m orders !! cat) <->
   is_Some (m !! cat) \/ orders_of cat orders <> []).
Proof.
  induction orders as [|o l IH]; intros m cat; simpl.
  - assert (Hnil : orders_of cat [] = []) by reflexivity.
    rewrite Hnil, total_nil. simpl.
    repeat split; try lra; try lia; [tauto|].
    intros [H|H]; [exact H|congruence].
  - destruct (IH (add_to_breakdown m o) cat) as (Hamt & Hcnt & Hsome).
    rewrite add_to_breakdown_lookup in Hamt, Hcnt, Hsome.
    rewrite orders_of_cons.
    destruct (decide (Order.category o = cat)) as [Heq|Hne].
    + simpl in Hamt, Hcnt. rewrite total_cons. cbn [length].
      split; [rewrite Hamt; lra|]. split; [rewrite Hcnt; lia|].
      rewrite Hsome. split; [intros _; right; congruence|eauto].
    + split; [exact Hamt|]. split; [exact Hcnt|exact Hsome].
Qed.

(** X8. In the summary of a plan, [category_breakdown] has an entry exactly
    for the categories that have an order; the entry holds the sum of the
    actual amounts of the orders of the category and their number. *)
Theorem portfolio_summary_breakdown (buy_orders : list Order.t)
    (cat : string) :
  match Summary.category_breakdown (get_portfolio_summary buy_orders) !! cat with
  | Some (amount, count) =>
      orders_of cat buy_orders <> [] /\
      amount == total Order.actual_amount (orders_of cat buy_orders) /\
      count = length (orders_of cat buy_orders)
  | None => orders_of cat buy_orders = []
  end.
Proof.
  unfold get_portfolio_summary; simpl.
  destruct (foldl_add_to_breakdown buy_orders ∅ cat) as (Hamt & Hcnt & Hsome).
  rewrite lookup_empty in Hamt, Hcnt, Hsome. simpl in Hamt, Hcnt.
  destruct (foldl add_to_breakdown ∅ buy_orders !! cat) as [[amount count]|].
  - simpl in Hamt, Hcnt. split; [|split; [lra|exact Hcnt]].
    apply proj1 in Hsome. destruct Hsome as [[x Hx]|H]; [eauto| |exact H].
    discriminate Hx.
  - destruct (orders_of cat buy_orders) as [|o l] eqn:E; [reflexivity|].
    exfalso. assert (Hs : is_Some (@None (Q * nat))).
    { apply Hsome. right. discriminate. }
    destruct Hs as [x Hx]. discriminate.
Qed.




(** * Properties of the trading strategy *)

Section CollaboratorProperties.
Variable World : Type.
Variable get_domestic_etf_price : World -> string -> World * option Price.t.
Variable get_balance : World -> World * Q.
Variable buy_order : World -> string -> Z -> World * option BuyResult.

(** ** The cache of 52-week highs *)

Lemma update_52w_high_foldl (etfs : list Etf.t) :
  forall (w : World) (cache : gmap string Q) (code : string),
  let cache' :=
    (foldl (fun '(w, cache) etf =>
              let code := Etf.code etf in
              match get_domestic_etf_price w code with
              | (w', Some price_data) =>
                  (w', <[code := Price.high_52w price_data]> cache)
              | (w', None) => (w', cache)
              end)
           (w, cache) etfs).2 in
  (is_Some (cache !! code) -> is_Some (cache' !! code)) /\
  (code ∉ Etf.code <$> etfs -> cache' !! code = cache !! code).
Proof.
  induction etfs as [|etf rest IH]; intros w cache code; simpl.
  - split; auto.
  - destruct (get_domestic_etf_price w (Etf.code etf)) as [w' [p|]].
    + destruct (IH w' (<[Etf.code etf := Price.high_52w p]> cache) code)
        as [Hsome Hsame].
      split.
      * intros Hc. apply Hsome.
        destruct (decide (Etf.code etf = code)) as [->|Hne].
        -- rewrite lookup_insert_eq. eauto.
        -- rewrite lookup_insert_ne by exact Hne. exact Hc.
      * intros Hnot. apply not_elem_of_cons in Hnot as [Hne Hnot].
        etransitivity; [exact (Hsame Hnot)|].
        apply lookup_insert_ne. congruence.
    + destruct (IH w' cache code) as [Hsome Hsame].
      split; [exact Hsome|].
      intros Hnot. apply not_elem_of_cons in Hnot as [_ Hnot]. auto.
Qed.

(** X10. Refreshing the cache of 52-week highs never drops an entry and
    never touches the entry of a code outside the active universe: an
    instrument whose price request fails, or which has left the universe,
    keeps the high cached before. *)
Theorem high_cache_is_merged (self : PortfolioAllocator)
    (high_52w_cache : gmap string Q) (w : World) (code : string) :
  let cache' :=
    (_update_52w_high World get_domestic_etf_price self high_52w_cache w).2 in
  (is_Some (high_52w_cache !! code) -> is_Some (cache' !! code)) /\
  (code ∉ Etf.code <$> active_etfs self ->
   cache' !! code = high_52w_cache !! code).
Proof. apply update_52w_high_foldl. Qed.

(** ** Dip detection *)






End CollaboratorProperties.

Lemma high_cache_is_merged_witness :
  (_update_52w_high unit feed_90 scenario_allocator (<["Z" := 5]> ∅) tt).2
    !! "Z" = Some 5.
Proof.
  refine (eq_trans
            (proj2 (high_cache_is_merged unit feed_90 scenario_allocator
                      (<["Z" := 5]> ∅) tt "Z") _) _).
  - not_listed.
  - reflexivity.
Defined.




Section OrderSubmission.
Variable World : Type.
Variable get_domestic_etf_price : World -> string -> World * option Price.t.
Variable get_balance : World -> World * Q.
Variable buy_order : World -> string -> Z -> World * option BuyResult.

(** ** Submitting the orders *)

Lemma count_of_app (p : Event -> bool) (l k : list Event) :
  count_of p (l ++ k) = (count_of p l + count_of p k)%nat.
Proof. unfold count_of. rewrite filter_app, length_app. reflexivity. Qed.

Lemma submitted_cons (o : Order.t) (l : list Order.t) :
  submitted (o :: l)
  = if decide (Order.quantity o = 0%Z) then submitted l else o :: submitted l.
Proof.
  unfold submitted. rewrite filter_cons.
  destruct (decide (Order.quantity o = 0%Z));
    destruct (decide (Order.quantity o <> 0%Z)); try reflexivity; tauto.
Qed.

Lemma buy_loop_spec (category_text : string) (buy_orders : list Order.t) :
  forall (w w' : World) (events events' : list Event) (s f s' f' : nat),
  buy_loop World buy_order buy_orders category_text w events s f
    = (w', events', s', f') ->
  exists new,
    events' = events ++ new /\
    omap is_buy_order new = order_key <$> submitted buy_orders /\
    s' = (s + count_of is_trade_recorded new)%nat /\
    f' = (f + count_of is_trade_failure new)%nat /\
    count_of is_sleep new = length (submitted buy_orders) /\
    (count_of is_trade_recorded new + count_of is_trade_failure new)%nat
      = length (submitted buy_orders).
Proof.
  induction buy_orders as [|o rest IH];
    intros w w' events events' s f s' f' H; simpl in H.
  - injection H as _ <- <- <-. exists []. rewrite app_nil_r.
    unfold count_of. repeat split; simpl; try reflexivity; lia.
  - rewrite submitted_cons.
    destruct (decide (Order.quantity o = 0%Z)) as [Hz|Hnz]; [eauto|].
    destruct (buy_order w (Order.code o) (Order.quantity o))
      as [w1 [[order_no msg|msg]|]];
      apply IH in H as (new & -> & Hsent & -> & -> & Hsleep & Hsum);
      eexists (_ ++ new); rewrite <- app_assoc;
      (split; [reflexivity|]);
      rewrite omap_app, !count_of_app, Hsent;
      cbn [length]; unfold count_of in *; simpl;
      repeat split; try reflexivity; lia.
Qed.

Lemma buy_orders_are_all_submitted_aux (buy_orders : list Order.t)
    (order_type : string) (w : World) :
  omap is_buy_order
    (_execute_buy_orders World buy_order buy_orders order_type w).1.2
  = order_key <$> submitted buy_orders.
Proof.
  unfold _execute_buy_orders.
  destruct (buy_loop World buy_order buy_orders (category_text_of order_type)
              w [] 0 0) as [[[w' events] s] f] eqn:E.
  apply buy_loop_spec in E as (new & -> & Hsent & _). exact Hsent.
Qed.

(** X13. [_execute_buy_orders] sends to the brokerage exactly the orders
    whose quantity is not 0, in plan order, whatever the brokerage answers:
    a rejected or failed order does not stop the later ones. Each sent
    order is either recorded as a trade or reported as a failure, each is
    followed by one pause, and the call returns true exactly when at least
    one trade was recorded. *)
Theorem buy_orders_are_all_submitted (buy_orders : list Order.t)
    (order_type : string) (w : World) :
  let '(_, events, success) :=
    _execute_buy_orders World buy_order buy_orders order_type w in
  omap is_buy_order events = order_key <$> submitted buy_orders /\
  (count_of is_trade_recorded events + count_of is_trade_failure events)%nat
    = length (submitted buy_orders) /\
  count_of is_sleep events = length (submitted buy_orders) /\
  (success = true <-> (0 < count_of is_trade_recorded events)%nat).
Proof.
  unfold _execute_buy_orders.
  destruct (buy_loop World buy_order buy_orders (category_text_of order_type)
              w [] 0 0) as [[[w' events] s] f] eqn:E.
  apply buy_loop_spec in E as (new & -> & Hsent & -> & _ & Hsleep & Hsum).
  simpl. repeat split; auto.
  - intros H. apply bool_decide_eq_true in H. exact H.
  - intros H. apply bool_decide_eq_true. exact H.
Qed.

(** ** The regular buy *)

(** X14. A regular buy sends orders to the brokerage only with [auto_trade]
    on and a balance that covers the required amount; the orders sent are
    then the non-zero orders of the plan computed from the prices just
    fetched. With [auto_trade] off the whole plan is announced once and
    the call returns true; with a balance below the required amount only
    the balance warning is sent. *)
Theorem regular_buy_orders_sent (self : TradingStrategy) (required : Q)
    (w : World) :
  let '(_, events, outcome) :=
    execute_regular_buy World get_domestic_etf_price get_balance buy_order
      self required w in
  let '(w1, balance) := get_balance w in
  let current_prices :=
    (_get_current_prices World get_domestic_etf_price (allocator self) w1).2 in
  (balance < required ->
   events = [BalanceWarningSent required balance] /\ outcome = Ok false) /\
  (omap is_buy_order events <> [] ->
   auto_trade self = true /\ required <= balance) /\
  (forall allocations buy_orders,
     required <= balance ->
     size current_prices <> 0%nat ->
     calculate_allocation (allocator self) required "REGULAR"
       = Ok allocations ->
     calculate_buy_quantities allocations current_prices = Ok buy_orders ->
     if auto_trade self then
       omap is_buy_order events = order_key <$> submitted buy_orders
     else
       events = [PlanAlertSent "REGULAR" buy_orders] /\ outcome = Ok true).
Proof.
  unfold execute_regular_buy.
  destruct (get_balance w) as [w1 balance].
  destruct (Qlt_le_dec balance required) as [Hlow|Hok].
  { split; [auto|]. split.
    - intros H. exfalso. apply H. reflexivity.
    - intros allocations buy_orders Hle. lra. }
  destruct (_get_current_prices World get_domestic_etf_price
              (allocator self) w1) as [w2 current_prices].
  simpl.
  destruct (decide (size current_prices = 0%nat)) as [Hnone|Hsome].
  { split; [intros; lra|]. split.
    - intros H. exfalso. apply H. reflexivity.
    - intros allocations buy_orders _ Hsize. contradiction. }
  destruct (calculate_allocation (allocator self) required "REGULAR")
    as [allocations|e].
  2:{ split; [intros; lra|]. split.
      - intros H. exfalso. apply H. reflexivity.
      - intros allocations buy_orders _ _ Heq. discriminate Heq. }
  destruct (calculate_buy_quantities allocations current_prices)
    as [buy_orders|e] eqn:Ebuy.
  2:{ split; [intros; lra|]. split.
      - intros H. exfalso. apply H. reflexivity.
      - intros allocations' buy_orders _ _ [= <-] Heq.
        rewrite Ebuy in Heq. discriminate Heq. }
  destruct (auto_trade self) eqn:Hauto.
  - pose proof (buy_orders_are_all_submitted_aux buy_orders "REGULAR" w2)
      as Hsent.
    destruct (_execute_buy_orders World buy_order buy_orders "REGULAR" w2)
      as [[w3 events] success].
    split; [intros; lra|]. split; [auto|].
    intros allocations' buy_orders' _ _ [= <-] Heq.
    rewrite Ebuy in Heq. injection Heq as <-. exact Hsent.
  - split; [intros; lra|]. split.
    + intros H. exfalso. apply H. reflexivity.
    + intros allocations' buy_orders' _ _ [= <-] Heq.
      rewrite Ebuy in Heq. injection Heq as <-. split; reflexivity.
Qed.

End OrderSubmission.

Lemma regular_buy_orders_sent_witness :
  auto_trade regular_strategy = true /\
  omap is_buy_order
    (execute_regular_buy unit feed_90 balance_1000000 broker_rejects
       regular_strategy 300000 tt).1.2 <> [].
Proof.
  pose proof (regular_buy_orders_sent unit feed_90 balance_1000000
                broker_rejects regular_strategy 300000 tt) as H.
  vm_compute in H. destruct H as (_ & H & _).
  assert (Hsent : omap is_buy_order
            (execute_regular_buy unit feed_90 balance_1000000 broker_rejects
               regular_strategy 300000 tt).1.2 <> [])
    by (vm_compute; discriminate).
  split; [|exact Hsent].
  apply H. vm_compute. discriminate.
Defined.

(** ** The dip buy *)

Lemma calculate_buy_quantities_codes (allocations : list Alloc.t)
    (prices : gmap string Q) (orders : list Order.t) :
  calculate_buy_quantities allocations prices = Ok orders ->
  Order.code <$> orders
    ≡ₚ Alloc.code <$> filter (priced prices) allocations.
Proof.
  unfold calculate_buy_quantities. intros H.
  destruct (calculate_buy_quantities_state allocations prices)
    as [[os final]|e] eqn:E; [|discriminate].
  injection H as <-.
  apply calculate_buy_quantities_state_inv in E as [Hg _].
  rewrite (Forall2_granted_fmap Order.code _ _
             (fun o o' Hoo => proj1 (granted_fields o o' Hoo)) Hg).
  rewrite sorted_Permutation, resolved_codes. reflexivity.
Qed.

(** X15. A dip buy leaves the allocator as it found it whenever planning
    raises nothing, and on the two early exits (no opportunity, balance
    below the dip amount): the universe narrowed to the flagged codes is
    put back before the orders are routed, whatever routing does. *)
Theorem dip_buy_restores_universe (route : list Order.t -> result bool)
    (self : TradingStrategy) (balance : Q) (opportunities : list Opp.t) :
  opportunities = [] \/ balance < dip_buy_amount self \/
  (exists buy_orders, dip_plan self opportunities = Ok buy_orders) ->
  fst (execute_dip_buy route self balance opportunities) = self.
Proof.
  intros H. unfold execute_dip_buy.
  destruct opportunities as [|opp opps]; [reflexivity|].
  destruct (Qlt_le_dec balance (dip_buy_amount self)) as [Hlow|Hhigh];
    [reflexivity|].
  destruct H as [H|[H|(buy_orders & H)]]; [discriminate|lra|].
  unfold dip_plan, narrowed in H.
  destruct self as [[method dip limits etfs] amount auto]; simpl in *.
  destruct (calculate_allocation _ _ _) as [allocations|e];
    [|discriminate].
  simpl in H. rewrite H. reflexivity.
Qed.

Lemma dip_buy_restores_universe_witness :
  fst (execute_dip_buy (fun _ => Raise (KeyError "route")) dip_strategy 1000000
         [opportunity_A_90]) = dip_strategy.
Proof.
  apply dip_buy_restores_universe.
  right. right. eexists. vm_compute. reflexivity.
Defined.

(** X16. Every order a dip buy plans is for a flagged code that is in the
    active universe; an instrument that is not flagged gets none of the
    dip amount, and a flagged code outside the universe gets no order. *)
Theorem dip_orders_are_flagged (self : TradingStrategy)
    (opportunities : list Opp.t) (buy_orders : list Order.t) :
  dip_plan self opportunities = Ok buy_orders ->
  Forall (fun o =>
            Order.code o ∈ Opp.code <$> opportunities /\
            Order.code o ∈ Etf.code <$> active_etfs (allocator self))
         buy_orders.
Proof.
  unfold dip_plan. intros H.
  apply bind_Ok in H as (allocations & Halloc & Hbuy).
  apply allocation_lines in Halloc as (lines & -> & HF).
  apply line_of_codes in HF.
  apply calculate_buy_quantities_codes in Hbuy.
  apply Forall_forall. intros o Ho.
  assert (Hin : Order.code o ∈ Order.code <$> buy_orders)
    by (apply list_elem_of_fmap; eauto).
  rewrite Hbuy in Hin.
  apply list_elem_of_fmap in Hin as (a & Hcode & Ha).
  apply list_elem_of_filter in Ha as [_ Ha].
  rewrite sorted_Permutation in Ha.
  assert (Hline : Alloc.code a ∈ Alloc.code <$> lines)
    by (apply list_elem_of_fmap; eauto).
  rewrite HF in Hline. unfold narrowed in Hline. simpl in Hline.
  apply list_elem_of_fmap in Hline as (etf & Hetf & Hin).
  apply list_elem_of_filter in Hin as [Hflag Hin].
  rewrite Hcode, Hetf. split; [exact Hflag|].
  apply list_elem_of_fmap. eauto.
Qed.

Lemma dip_orders_are_flagged_witness :
  exists buy_orders,
    dip_plan dip_strategy [opportunity_A_90] = Ok buy_orders /\
    Forall (fun o => Order.code o ∈ ["A"] /\ Order.code o ∈ ["A"; "B"])
           buy_orders.
Proof.
  eexists. split; [vm_compute; reflexivity|].
  exact (dip_orders_are_flagged dip_strategy [opportunity_A_90] _ eq_refl).
Defined.

(** ** The hours of the dip check *)

(** X17. The scheduled dip check goes past its two guards exactly on
    Monday to Friday between 09:00 and 15:30, both ends included. *)
Theorem dip_check_hours (weekday hour minute : Z) :
  (0 <= minute < 60)%Z ->
  dip_check_runs weekday hour minute = true <->
  (weekday < 5)%Z /\ (9 * 60 <= hour * 60 + minute <= 15 * 60 + 30)%Z.
Proof.
  intros Hminute. unfold dip_check_runs.
  destruct (5 <=? weekday)%Z eqn:Hw;
    destruct (9 <=? hour)%Z eqn:H9;
    destruct (hour <? 15)%Z eqn:H15;
    destruct (hour =? 15)%Z eqn:He;
    destruct (minute <=? 30)%Z eqn:Hm; simpl;
    split; intros H; try discriminate H; try reflexivity; try (split; lia);
    exfalso; lia.
Qed.

Lemma dip_check_hours_witness :
  dip_check_runs 4 15 30 = true /\ dip_check_runs 4 15 31 = false.
Proof.
  split.
  - apply (dip_check_hours 4 15 30); lia.
  - destruct (dip_check_runs 4 15 31) eqn:E; [|reflexivity].
    apply (dip_check_hours 4 15 31) in E; lia.
Defined.

(** ** The prices of a run *)

Section PriceFetch.
Variable World : Type.
Variable get_domestic_etf_price : World -> string -> World * option Price.t.

Lemma get_current_prices_foldl (etfs : list Etf.t) :
  forall (w : World) (prices : gmap string Q) (code : string),
  is_Some
    ((foldl (fun '(w, prices) etf =>
               let code := Etf.code etf in
               match get_domestic_etf_price w code with
               | (w', Some price_data) =>
                   (w', <[code := Price.current_price price_data]> prices)
               | (w', None) => (w', prices)
               end)
            (w, prices) etfs).2 !! code) ->
  is_Some (prices !! code) \/ code ∈ Etf.code <$> etfs.
Proof.
  induction etfs as [|etf rest IH]; intros w prices code; simpl.
  - auto.
  - destruct (get_domestic_etf_price w (Etf.code etf)) as [w' [p|]];
      intros H; apply IH in H as [H|H]; try (right; right; exact H).
    + destruct (decide (Etf.code etf = code)) as [<-|Hne].
      * right. left.
      * rewrite lookup_insert_ne in H by exact Hne. left. exact H.
    + left. exact H.
Qed.

Lemma get_current_prices_down (etfs : list Etf.t) :
  (forall w code, (get_domestic_etf_price w code).2 = None) ->
  forall (w : World) (prices : gmap string Q),
  (foldl (fun '(w, prices) etf =>
            let code := Etf.code etf in
            match get_domestic_etf_price w code with
            | (w', Some price_data) =>
                (w', <[code := Price.current_price price_data]> prices)
            | (w', None) => (w', prices)
            end)
         (w, prices) etfs).2 = prices.
Proof.
  intros Hdown. induction etfs as [|etf rest IH]; intros w prices;
    [reflexivity|]. simpl.
  pose proof (Hdown w (Etf.code etf)) as Hnone.
  destruct (get_domestic_etf_price w (Etf.code etf)) as [w' o].
  simpl in Hnone. subst o. apply IH.
Qed.

(** X18. [_get_current_prices] lists prices for active instruments only,
    and when every price request fails it lists none. *)
Theorem current_prices_are_of_active_codes (self : PortfolioAllocator)
    (w : World) :
  let current_prices :=
    (_get_current_prices World get_domestic_etf_price self w).2 in
  (forall code, is_Some (current_prices !! code) ->
                code ∈ Etf.code <$> active_etfs self) /\
  ((forall w code, (get_domestic_etf_price w code).2 = None) ->
   current_prices = ∅).
Proof.
  split.
  - intros code H. apply get_current_prices_foldl in H as [H|H]; [|exact H].
    rewrite lookup_empty in H. destruct H as [x Hx]. discriminate.
  - intros Hdown. unfold _get_current_prices.
    apply get_current_prices_down. exact Hdown.
Qed.

End PriceFetch.

Lemma feed_down_fails (w : unit) (code : string) :
  (feed_down w code).2 = None.
Proof. reflexivity. Defined.

Lemma current_prices_are_of_active_codes_witness :
  (_get_current_prices unit feed_down scenario_allocator tt).2 = ∅.
Proof.
  exact (proj2 (current_prices_are_of_active_codes unit feed_down
                  scenario_allocator tt) feed_down_fails).
Defined.

(** ** Lines without a price *)

(** X19. When no line has a price, in particular for an empty price map,
    quantity resolution raises nothing and returns an empty plan. *)
Theorem unpriced_lines_give_an_empty_plan (allocations : list Alloc.t)
    (current_prices : gmap string Q) :
  (forall a, a ∈ allocations -> current_prices !! Alloc.code a = None) ->
  calculate_buy_quantities_state allocations current_prices = Ok ([], 0) /\
  calculate_buy_quantities allocations current_prices = Ok [].
Proof.
  intros Hnone.
  assert (Hstate : calculate_buy_quantities_state allocations current_prices
                   = Ok ([], 0)).
  { assert (Hgen : forall l acc R0,
              (forall a, a ∈ l -> current_prices !! Alloc.code a = None) ->
              resolve_lines l current_prices acc R0 = Ok (acc, R0)).
    { induction l as [|a l IH]; intros acc' R' Hl; [reflexivity|].
      simpl. rewrite (Hl a) by left. apply IH.
      intros b Hb. apply Hl. now right. }
    unfold calculate_buy_quantities_state.
    rewrite (Hgen allocations [] 0 Hnone). reflexivity. }
  split; [exact Hstate|].
  unfold calculate_buy_quantities. rewrite Hstate. reflexivity.
Qed.

Lemma two_lines_unpriced (a : Alloc.t) :
  a ∈ two_lines -> (∅ : gmap string Q) !! Alloc.code a = None.
Proof. intros _. apply lookup_empty. Defined.

Lemma unpriced_lines_give_an_empty_plan_witness :
  calculate_buy_quantities two_lines ∅ = Ok [].
Proof.
  exact (proj2 (unpriced_lines_give_an_empty_plan two_lines ∅
                  two_lines_unpriced)).
Defined.

(** ** Construction *)


